(** * Example host configuration generator (generate_config.py)

    A shallow embedding of [src/generate_config.py]: the decoded YAML
    documents the program reads, the Python operations it applies to them,
    and the functions [get_hosts], [parse_role], [build_role_config],
    [get_dependant_roles], [extract_role_names], [accumulate_roles],
    [generate_example_config] and [generate], followed by the properties
    established about them.

    Conventions of the model.
    - Files are taken as already decoded by [yaml.safe_load]: a document is
      a value of type [yaml]. Floats, timestamps and binary scalars are left
      out of [yaml], mapping keys are strings, and strings are sequences of
      7-bit characters.
    - A Python exception is a value [Raise e] of the [result] type; the
      exception classes are the ones the interpreter raises at that place.
    - Recursion of [get_dependant_roles] is bounded by the interpreter's
      recursion limit, the [depth] argument; exceeding it raises
      [RecursionError].
    - Logging is not modelled. *)

From Stdlib Require Import ZArith String Ascii List Bool Lia.
From stdpp Require Import base option list strings gmap sets relations pretty.

(** ** Exceptions and results *)

Inductive exn : Set :=
| AttributeError
| KeyError
| TypeError
| ValueError
| RecursionError.

Inductive result (A : Type) : Type :=
| Ok (a : A)
| Raise (e : exn).

Arguments Ok {A} a.
Arguments Raise {A} e.

#[global] Instance result_ret : MRet result := @Ok.

#[global] Instance result_bind : MBind result :=
  λ A B f m, match m with Ok a => f a | Raise e => Raise e end.

#[global] Instance result_fmap : FMap result :=
  λ A B f m, match m with Ok a => Ok (f a) | Raise e => Raise e end.

(** [for x in l: s = body(s, x)], stopping at the first exception. *)
Fixpoint for_each {A S : Type} (body : S → A → result S) (l : list A) (s : S)
  : result S :=
  match l with
  | [] => Ok s
  | x :: l' => s' ← body s x; for_each body l' s'
  end.

(** ** Decoded YAML values *)

#[local] Set Warnings "-register-all".

Inductive yaml : Type :=
| YNone
| YBool (b : bool)
| YInt (z : Z)
| YStr (s : string)
| YList (l : list yaml)
| YDict (d : list (string * yaml)).

(** What a Python [set] or [dict] can hold as an element or key among the
    values above. Python identifies [True] with [1] and [False] with [0]
    (equal, same hash), so booleans are stored as integers. *)
Inductive pykey : Type :=
| KNone
| KInt (z : Z)
| KStr (s : string).

#[global] Instance pykey_eq_dec : EqDecision pykey.
Proof. solve_decision. Defined.

#[global] Instance pykey_countable : Countable pykey :=
  inj_countable'
    (λ k, match k with
          | KNone => inl ()
          | KInt z => inr (inl z)
          | KStr s => inr (inr s)
          end)
    (λ x, match x with
          | inl _ => KNone
          | inr (inl z) => KInt z
          | inr (inr s) => KStr s
          end)
    (λ k, match k with KNone | KInt _ | KStr _ => eq_refl end).

Module Py.

(** [bool(v)] *)
Definition truthy (v : yaml) : bool :=
  match v with
  | YNone => false
  | YBool b => b
  | YInt z => negb (z =? 0)%Z
  | YStr s => negb (bool_decide (s = ""))
  | YList l => match l with [] => false | _ => true end
  | YDict d => match d with [] => false | _ => true end
  end.

(** Lookup in a mapping kept in insertion order. *)
Fixpoint dict_lookup {K V : Type} `{EqDecision K} (k : K) (d : list (K * V))
  : option V :=
  match d with
  | [] => None
  | (k', v) :: d' => if bool_decide (k = k') then Some v else dict_lookup k d'
  end.

(** [d[k] = v]: replaces the value at an existing key in place (the key
    object stays), appends a new key at the end. *)
Fixpoint dict_set {K V : Type} `{EqDecision K} (k : K) (v : V) (d : list (K * V))
  : list (K * V) :=
  match d with
  | [] => [(k, v)]
  | (k', v') :: d' =>
      if bool_decide (k = k') then (k', v) :: d' else (k', v') :: dict_set k v d'
  end.

(** [v.get(k, dflt)]: only mappings have the method. *)
Definition get (v : yaml) (k : string) (dflt : yaml) : result yaml :=
  match v with
  | YDict d => Ok (default dflt (dict_lookup k d))
  | _ => Raise AttributeError
  end.

(** [v[k]] with a string subscript. *)
Definition getitem (v : yaml) (k : string) : result yaml :=
  match v with
  | YDict d =>
      match dict_lookup k d with
      | Some x => Ok x
      | None => Raise KeyError
      end
  | _ => Raise TypeError
  end.

(** [needle in hay] on strings: substring test. *)
Fixpoint str_contains (needle hay : string) : bool :=
  String.prefix needle hay
  || match hay with
     | EmptyString => false
     | String _ hay' => str_contains needle hay'
     end.

Definition is_str (k : string) (v : yaml) : bool :=
  match v with
  | YStr s => bool_decide (s = k)
  | _ => false
  end.

(** [k in v] for a string [k]. *)
Definition contains (k : string) (v : yaml) : result bool :=
  match v with
  | YDict d => Ok (bool_decide (is_Some (dict_lookup k d)))
  | YList l => Ok (existsb (is_str k) l)
  | YStr s => Ok (str_contains k s)
  | _ => Raise TypeError
  end.

Definition chars (s : string) : list string :=
  map (λ c, String c EmptyString) (list_ascii_of_string s).

(** The sequence [for x in v] runs over. *)
Definition iter (v : yaml) : result (list yaml) :=
  match v with
  | YList l => Ok l
  | YDict d => Ok (map (λ kv, YStr kv.1) d)
  | YStr s => Ok (map YStr (chars s))
  | _ => Raise TypeError
  end.

(** [v.items()] and [v.values()] *)
Definition items (v : yaml) : result (list (string * yaml)) :=
  match v with
  | YDict d => Ok d
  | _ => Raise AttributeError
  end.

Definition values (v : yaml) : result (list yaml) :=
  match v with
  | YDict d => Ok (map snd d)
  | _ => Raise AttributeError
  end.

(** Characters [str.strip()] removes (the 7-bit ones). *)
Definition is_space (c : ascii) : bool :=
  let n := nat_of_ascii c in
  ((9 <=? n) && (n <=? 13)) || ((28 <=? n) && (n <=? 32)).

Fixpoint lstrip (s : string) : string :=
  match s with
  | EmptyString => EmptyString
  | String c s' => if is_space c then lstrip s' else s
  end.

Definition str_strip (s : string) : string :=
  String.rev (lstrip (String.rev (lstrip s))).

(** [v.strip()] *)
Definition strip (v : yaml) : result yaml :=
  match v with
  | YStr s => Ok (YStr (str_strip s))
  | _ => Raise AttributeError
  end.

(** [hash(v)], as needed to store [v] in a set. *)
Definition hash_key (v : yaml) : result pykey :=
  match v with
  | YNone => Ok KNone
  | YBool b => Ok (KInt (if b then 1 else 0))
  | YInt z => Ok (KInt z)
  | YStr s => Ok (KStr s)
  | YList _ | YDict _ => Raise TypeError
  end.

(** [v == b] for a boolean [b]. *)
Definition eq_bool (v : yaml) (b : bool) : bool :=
  match v with
  | YBool b' => eqb b' b
  | YInt z => (z =? (if b then 1 else 0))%Z
  | _ => false
  end.

(** [root / v]: a path component must be a string. *)
Definition path_component (v : yaml) : result string :=
  match v with
  | YStr s => Ok s
  | _ => Raise TypeError
  end.

(** [sep.join(l)] *)
Fixpoint join (sep : string) (l : list string) : string :=
  match l with
  | [] => EmptyString
  | [s] => s
  | s :: l' => s +:+ sep +:+ join sep l'
  end.

(** [s * n] *)
Fixpoint str_mul (s : string) (n : nat) : string :=
  match n with
  | 0 => EmptyString
  | S n' => s +:+ str_mul s n'
  end.

Definition nl : string := String (ascii_of_nat 10) EmptyString.
Definition dquote : ascii := ascii_of_nat 34.
Definition squote : ascii := ascii_of_nat 39.
Definition backslash : ascii := ascii_of_nat 92.

Definition hex_digit (n : nat) : ascii :=
  default "0"%char (String.get n "0123456789abcdef").

(** [repr] of one character inside quotes [q]. *)
Definition repr_char (q c : ascii) : string :=
  let n := nat_of_ascii c in
  if bool_decide (c = backslash) || bool_decide (c = q)
  then String backslash (String c EmptyString)
  else if n =? 9 then String backslash "t"
  else if n =? 10 then String backslash "n"
  else if n =? 13 then String backslash "r"
  else if (n <? 32) || (n =? 127)
  then String backslash (String "x"%char
         (String (hex_digit (n / 16)) (String (hex_digit (n mod 16)) EmptyString)))
  else String c EmptyString.

(** [repr(s)] for a string: single quotes unless the string holds a single
    quote and no double quote. *)
Definition repr_str (s : string) : string :=
  let cs := list_ascii_of_string s in
  let q := if bool_decide (squote ∈ cs) && negb (bool_decide (dquote ∈ cs))
           then dquote else squote in
  String q (fold_right (λ c acc, repr_char q c +:+ acc) (String q EmptyString) cs).

(** [repr(v)] and [str(v)], the latter being what an f-string inserts. *)
Fixpoint repr (v : yaml) : string :=
  match v with
  | YNone => "None"
  | YBool b => if b then "True" else "False"
  | YInt z => pretty z
  | YStr s => repr_str s
  | YList l => "[" +:+ join ", " (map repr l) +:+ "]"
  | YDict d =>
      "{" +:+ join ", "
                (map (λ kv, match kv with
                            | (k, x) => repr_str k +:+ ": " +:+ repr x
                            end) d) +:+ "}"
  end.

Definition str (v : yaml) : string :=
  match v with
  | YStr s => s
  | _ => repr v
  end.

(** The last component of [project_root / roles / role] ([Path.name]):
    empty and [.] components vanish, an absolute [role] replaces the
    whole path. *)
Fixpoint split_slash (cur : string) (s : string) : list string :=
  match s with
  | EmptyString => [String.rev cur]
  | String c s' =>
      if bool_decide (c = "/"%char)
      then String.rev cur :: split_slash EmptyString s'
      else split_slash (String c cur) s'
  end.

Definition path_name (role : string) : string :=
  let parts :=
    filter (λ c, c ≠ EmptyString ∧ c ≠ ".") (split_slash EmptyString role) in
  match last parts with
  | Some c => c
  | None => if String.prefix "/" role then EmptyString else "roles"
  end.

End Py.

(** ** Constants and data classes *)

Definition SHARED_HOST_NAME : string := "all".
Definition SHARED_TAG : string := "shared".
Definition CUSTOM_PROPERTY_SECRET : string := "x-secret".
Definition SECRET_FILE_SUFFIX : string := ".secrets".

(** Python does not check the annotations of a dataclass: the fields below
    hold whatever [get_hosts] and [parse_role] read from the documents. A
    group name and the name of a property are keys of a mapping, hence
    strings. *)
Module ConfigHost.
Record t : Type := mk { name : yaml; group_name : string }.
End ConfigHost.

Module ConfigProperty.
Record t : Type := mk {
  name : string;
  type : yaml;
  description : yaml;
  required : yaml;
  default : yaml;
  secret : yaml
}.
End ConfigProperty.

Module ConfigRole.
Record t : Type := mk {
  name : string;
  description : yaml;
  short_description : yaml;
  properties : list ConfigProperty.t
}.
End ConfigRole.

(** ** The project on disk

    What the program reads below [project_root], by role name as the
    program spells it in a path: whether [roles/<role>] is a directory,
    and the decoded content of [roles/<role>/meta/main.yml],
    [roles/<role>/meta/argument_specs.yml] and
    [roles/<role>/defaults/main.yml] where the file exists; and the decoded
    main playbook. *)
Record project : Type := {
  role_is_dir : string → bool;
  meta_file : string → option yaml;
  specs_file : string → option yaml;
  defaults_file : string → option yaml;
  main_file : yaml
}.

(** A file written by [generate_example_config]: the host directory under
    [host_vars], the file name and the text. *)
Record written_file : Type := {
  file_host : string;
  file_name : string;
  file_text : string
}.

(** ** HostsParser.get_hosts *)

Definition shared_host : ConfigHost.t :=
  ConfigHost.mk (YStr SHARED_HOST_NAME) "all".

(** The hosts of one group. *)
Definition get_hosts_group (hosts : list ConfigHost.t) (entry : string * yaml)
  : result (list ConfigHost.t) :=
  let '(group, group_data) := entry in
  has_hosts ← Py.contains "hosts" group_data;
  if has_hosts : bool then
    hs ← Py.getitem group_data "hosts";
    names ← Py.iter hs;
    for_each (λ hosts host, Ok (hosts ++ [ConfigHost.mk host group]))
             names hosts
  else Ok hosts.

Definition get_hosts (inventory_file : option yaml) (include_shared : bool)
  : result (list ConfigHost.t) :=
  match inventory_file with
  | None => Raise ValueError
  | Some inventory =>
      if negb (Py.truthy inventory) then Raise ValueError
      else
        let hosts := if include_shared then [shared_host] else [] in
        tops ← Py.values inventory;
        for_each (λ hosts top_data,
                    children ← Py.getitem top_data "children";
                    groups ← Py.items children;
                    for_each get_hosts_group groups hosts)
                 tops hosts
  end.

(** ** ConfigGenerator.parse_role *)

(** One turn of the loop over [options.items()]. The loop assigns the
    local variable [description], the one the role's description was
    stored in before the loop, so it is part of the loop state. *)
Definition parse_role_option (defaults : yaml)
    (st : yaml * list ConfigProperty.t) (entry : string * yaml)
  : result (yaml * list ConfigProperty.t) :=
  let '(var_name, meta) := entry in
  type ← Py.get meta "type" YNone;
  d ← Py.get meta "description" (YStr "");
  description ← Py.strip d;
  required ← Py.get meta "required" (YBool false);
  secret ← Py.get meta CUSTOM_PROPERTY_SECRET (YBool false);
  spec_default ← Py.get meta "default" YNone;
  default ← Py.get defaults var_name spec_default;
  Ok (description,
      st.2 ++ [ConfigProperty.mk var_name type description required default secret]).

Definition parse_role (p : project) (role : string) : result ConfigRole.t :=
  match specs_file p role with
  | None => Ok (ConfigRole.mk (Py.path_name role) (YStr "") (YStr "") [])
  | Some specs =>
      let defaults :=
        match defaults_file p role with
        | Some d => if Py.truthy d then d else YDict []
        | None => YDict []
        end in
      arg_specs ←
        (if Py.truthy specs
         then a ← Py.get specs "argument_specs" (YDict []);
              Py.get a "main" (YDict [])
         else Ok specs);
      ds ←
        (if Py.truthy arg_specs
         then description ← Py.get arg_specs "description" (YDict []);
              short_description ←
                Py.get arg_specs "short_description" (YDict []);
              Ok (description, short_description)
         else Ok (YStr "", YStr ""));
      options ←
        (if Py.truthy arg_specs
         then Py.get arg_specs "options" (YDict [])
         else Ok arg_specs);
      st ←
        (if Py.truthy options
         then entries ← Py.items options;
              for_each (parse_role_option defaults) entries (ds.1, [])
         else Ok (ds.1, []));
      Ok (ConfigRole.mk (Py.path_name role) st.1 ds.2 st.2)
  end.

(** ** ConfigGenerator.build_role_config *)

Definition property_lines (prop : ConfigProperty.t) : list string :=
  ["#  (" +:+ (if Py.truthy (ConfigProperty.required prop)
               then "REQUIRED" else "Optional")
          +:+ ") " +:+ Py.str (ConfigProperty.description prop)]
  ++ (match ConfigProperty.type prop with
      | YNone => []
      | ty => ["#  Type: " +:+ Py.str ty]
      end)
  ++ (match ConfigProperty.default prop with
      | YNone => []
      | dv => ["#  Default: " +:+ Py.str dv]
      end)
  ++ [ConfigProperty.name prop +:+ ": "
        +:+ (match ConfigProperty.default prop with
             | YNone => EmptyString
             | dv => Py.str dv
             end);
      EmptyString].

Definition NO_OPTIONS : string := "(no options)".

Definition SECRETS_NOTE : string :=
  "# Note: This role has secret variables. See the corresponding '"
  +:+ SECRET_FILE_SUFFIX +:+ "' file for the list of those variables.".

(** [any(p.secret for p in config_role.properties)] *)
Definition has_secrets (config_role : ConfigRole.t) : bool :=
  existsb (λ p, Py.truthy (ConfigProperty.secret p))
          (ConfigRole.properties config_role).

(** The test of the loop: [prop.secret != secrets] skips the property. *)
Definition rendered (secrets : bool) (prop : ConfigProperty.t) : bool :=
  Py.eq_bool (ConfigProperty.secret prop) secrets.

Definition build_role_config (config_role : ConfigRole.t) (secrets : bool)
  : list string :=
  let block :=
    [Py.nl +:+ "### Role: " +:+ ConfigRole.name config_role
       +:+ (if Py.truthy (ConfigRole.short_description config_role)
            then " - " +:+ Py.str (ConfigRole.short_description config_role)
            else EmptyString)] in
  let block :=
    if Py.truthy (ConfigRole.description config_role)
    then block ++ ["###     " +:+ Py.str (ConfigRole.description config_role)]
    else block in
  let block := block ++ [Py.str_mul "#" 64] in
  let block := block ++ [EmptyString] in
  let block :=
    match ConfigRole.properties config_role with
    | [] => block ++ [NO_OPTIONS]
    | props =>
        fold_left (λ block prop,
                     if rendered secrets prop
                     then block ++ property_lines prop
                     else block)
                  props block
    end in
  let block :=
    if negb secrets && has_secrets config_role
    then block ++ [SECRETS_NOTE]
    else block in
  block ++ [EmptyString].

(** ** ConfigGenerator.get_dependant_roles *)

(** [depth] is the number of nested calls the interpreter still allows.
    A dependency whose [role] is not a string raises [TypeError]: when it is
    added to the set if it cannot be hashed, otherwise when the recursive
    call joins it to a path. *)
Fixpoint get_dependant_roles (p : project) (depth : nat) (role : string)
  : result (gset string) :=
  match depth with
  | 0 => Raise RecursionError
  | S depth' =>
      if negb (role_is_dir p role) then Ok ∅
      else
        match meta_file p role with
        | None => Ok ∅
        | Some doc =>
            let meta := if Py.truthy doc then doc else YDict [] in
            deps ← Py.get meta "dependencies" (YList []);
            entries ← Py.iter deps;
            for_each (λ roles dep,
                        dep_role ← Py.getitem dep "role";
                        r ← Py.path_component dep_role;
                        sub ← get_dependant_roles p depth' r;
                        Ok (roles ∪ {[r]} ∪ sub))
                     entries ∅
        end
  end.

(** ** ConfigGenerator.extract_role_names *)

Definition extract_role_item (role_names : gset pykey) (item : yaml)
  : result (gset pykey) :=
  match item with
  | YStr s => Ok (role_names ∪ {[KStr s]})
  | YDict d =>
      match Py.dict_lookup "role" d with
      | Some r => k ← Py.hash_key r; Ok (role_names ∪ {[k]})
      | None => Ok role_names
      end
  | _ => Ok role_names
  end.

Definition extract_role_names (roles_data : yaml) : result (gset pykey) :=
  match roles_data with
  | YList entries => for_each extract_role_item entries ∅
  | YDict d => Ok (list_to_set (map (λ kv, KStr kv.1) d))
  | YStr s => Ok (list_to_set (map KStr (Py.chars s)))
  | _ => Raise ValueError
  end.

(** ** ConfigGenerator.accumulate_roles *)

(** The condition under which a task of the playbook counts for a group. *)
Definition task_applies (group_name : string) (task : yaml) : result bool :=
  hosts ← Py.getitem task "hosts";
  in_hosts ← Py.contains group_name hosts;
  if in_hosts : bool then Ok true
  else if Py.is_str "all" hosts then Ok true
  else
    has_tags ← Py.contains "tags" task;
    if has_tags : bool then
      tags ← Py.getitem task "tags";
      Py.contains SHARED_TAG tags
    else Ok false.

Definition accumulate_task (group_name : string) (main_roles : gset pykey)
    (task : yaml) : result (gset pykey) :=
  applies ← task_applies group_name task;
  if applies : bool then
    has_roles ← Py.contains "roles" task;
    if has_roles : bool then
      roles_data ← Py.getitem task "roles";
      names ← extract_role_names roles_data;
      Ok (main_roles ∪ names)
    else Ok main_roles
  else Ok main_roles.

(** The second loop adds to a copy of [main_roles] the dependencies of each
    of its members. A member that is not a string raises [TypeError] in
    [get_dependant_roles], so a set that is returned holds strings only and
    is built here from the members as strings. The order in which a Python
    set is run over is unspecified; [elements] fixes one. *)
Definition accumulate_roles (p : project) (depth : nat) (group_name : string)
  : result (gset string) :=
  tasks ← Py.iter (main_file p);
  main_roles ← for_each (accumulate_task group_name) tasks ∅;
  for_each (λ accumulated_roles role,
              r ← match role with
                  | KStr s => Ok s
                  | _ => Raise TypeError
                  end;
              sub ← get_dependant_roles p depth r;
              Ok (accumulated_roles ∪ {[r]} ∪ sub))
           (elements main_roles) ∅.

(** ** ConfigGenerator.generate_example_config *)

Definition file_header (host_name : string) (secrets : bool) : list string :=
  ["---"; "# Autogenerated example config from roles argument_specs"]
  ++ (if secrets
      then ["# SECRETS: This file contains only secret variables and is meant as a list of variables you should put in a vault or some secret manager, instead of here."]
      else [])
  ++ (if bool_decide (host_name = SHARED_HOST_NAME)
      then ["# These are the shared configs applied for all hosts. Any value here can be overriden in the specific host config."
              +:+ Py.nl
              +:+ "# Use the `shared` tag (in main playbook) to make configs appear here."]
      else []).

(** One turn of the loop over [roles]. *)
Definition example_config_role (p : project) (secrets : bool)
    (lines : list string) (role : string) : result (list string) :=
  config_role ← parse_role p role;
  if secrets && negb (has_secrets config_role)
  then Ok lines
  else Ok (lines ++ build_role_config config_role secrets).

(** The lines of the file, in the order [roles] is run over. *)
Definition example_config_lines (p : project) (host_name : string)
    (roles : list string) (secrets : bool) : result (list string) :=
  for_each (example_config_role p secrets) roles (file_header host_name secrets).

(** [host_name] is a key of [roles_per_host]; joining it to the path of
    the output directory, the first thing the function does, raises
    [TypeError] unless it is a string. *)
Definition generate_example_config (p : project) (host_name : pykey)
    (roles : gset string) (secrets : bool) : result written_file :=
  match host_name with
  | KStr host_name =>
      let stem :=
        if secrets then host_name +:+ SECRET_FILE_SUFFIX else host_name in
      lines ← example_config_lines p host_name (elements roles) secrets;
      Ok {| file_host := host_name;
            file_name := "." +:+ stem +:+ ".yml.example";
            file_text := Py.join Py.nl lines +:+ Py.nl +:+ Py.nl |}
  | _ => Raise TypeError
  end.

(** ** ConfigGenerator.generate *)

(** First loop: [roles_per_host[host.name] = accumulate_roles(host.group_name)].
    The right-hand side is evaluated first; storing it hashes the name.
    Every call of [accumulate_roles] returns a set of its own, so the sets
    of the dictionary are not aliased and are modelled as values. *)
Definition accumulate_hosts (p : project) (depth : nat)
    (hosts : list ConfigHost.t) : result (list (pykey * gset string)) :=
  for_each (λ roles_per_host host,
              roles ← accumulate_roles p depth (ConfigHost.group_name host);
              name ← Py.hash_key (ConfigHost.name host);
              Ok (Py.dict_set name roles roles_per_host))
           hosts [].

(** Second loop: [roles.difference_update(all_roles)] for every other name,
    when the shared name is a key. *)
Definition remove_shared_roles (roles_per_host : list (pykey * gset string))
  : list (pykey * gset string) :=
  match Py.dict_lookup (KStr SHARED_HOST_NAME) roles_per_host with
  | Some all_roles =>
      map (λ entry,
             if bool_decide (entry.1 ≠ KStr SHARED_HOST_NAME)
             then (entry.1, entry.2 ∖ all_roles)
             else entry)
          roles_per_host
  | None => roles_per_host
  end.

(** The dictionary [roles_per_host] as the third loop reads it. *)
Definition roles_per_host (p : project) (depth : nat)
    (hosts : list ConfigHost.t) : result (list (pykey * gset string)) :=
  remove_shared_roles <$> accumulate_hosts p depth hosts.

(** Third loop: the secrets file, then the normal file, of every host. The
    result is the files written, in order, and [Ok 0] or the exception that
    stopped the run (the files written before it stay). *)
Fixpoint write_examples (p : project) (plan : list (pykey * gset string))
  : list written_file * result Z :=
  match plan with
  | [] => ([], Ok 0%Z)
  | (name, roles) :: plan' =>
      match generate_example_config p name roles true with
      | Raise e => ([], Raise e)
      | Ok f_secrets =>
          match generate_example_config p name roles false with
          | Raise e => ([f_secrets], Raise e)
          | Ok f_normal =>
              let '(written, r) := write_examples p plan' in
              (f_secrets :: f_normal :: written, r)
          end
      end
  end.

Definition generate (p : project) (depth : nat) (hosts : list ConfigHost.t)
  : list written_file * result Z :=
  match roles_per_host p depth hosts with
  | Raise e => ([], Raise e)
  | Ok plan => write_examples p plan
  end.

(** ** Notions used to state the properties *)

(** [f] applied to every element, stopping at the first exception. *)
Fixpoint map_result {A B : Type} (f : A → result B) (l : list A)
  : result (list B) :=
  match l with
  | [] => Ok []
  | x :: l' => y ← f x; ys ← map_result f l'; Ok (y :: ys)
  end.

(** The role named by one entry of a [dependencies] sequence. *)
Definition dependency_name (dep : yaml) : result string :=
  dep_role ← Py.getitem dep "role";
  Py.path_component dep_role.

(** The roles a role declares as its dependencies: the edges of the role
    graph that leave [role]. A role without directory or without
    [meta/main.yml] declares none. *)
Definition declared_dependencies (p : project) (role : string)
  : result (list string) :=
  if negb (role_is_dir p role) then Ok []
  else
    match meta_file p role with
    | None => Ok []
    | Some doc =>
        let meta := if Py.truthy doc then doc else YDict [] in
        deps ← Py.get meta "dependencies" (YList []);
        entries ← Py.iter deps;
        map_result dependency_name entries
    end.

Definition depends_on (p : project) (role dep : string) : Prop :=
  ∃ deps, declared_dependencies p role = Ok deps ∧ dep ∈ deps.

(** The three representations of a task's [roles] the specification
    names: a sequence of bare names, a sequence of mappings each holding a
    [role] key, a mapping keyed by the names. *)
Definition is_bare_names (v : yaml) : bool :=
  match v with
  | YList l => forallb (λ x, match x with YStr _ => true | _ => false end) l
  | _ => false
  end.

Definition is_role_mappings (v : yaml) : bool :=
  match v with
  | YList l =>
      forallb (λ x, match x with
                    | YDict d => bool_decide (is_Some (Py.dict_lookup "role" d))
                    | _ => false
                    end) l
  | _ => false
  end.

Definition is_name_mapping (v : yaml) : bool :=
  match v with
  | YDict _ => true
  | _ => false
  end.

Definition supported_roles_shape (v : yaml) : bool :=
  is_bare_names v || is_role_mappings v || is_name_mapping v.

(** The values [extract_role_names] has a branch for. *)
Definition roles_container (v : yaml) : bool :=
  match v with
  | YList _ | YDict _ | YStr _ => true
  | _ => false
  end.

(** An item of a [roles] sequence that names no role: neither a string nor
    a mapping with a [role] key. *)
Definition names_no_role (item : yaml) : bool :=
  match item with
  | YStr _ => false
  | YDict d => negb (bool_decide (is_Some (Py.dict_lookup "role" d)))
  | _ => true
  end.

(** The parts of the block [build_role_config] returns. *)
Definition block_header (config_role : ConfigRole.t) : list string :=
  [Py.nl +:+ "### Role: " +:+ ConfigRole.name config_role
     +:+ (if Py.truthy (ConfigRole.short_description config_role)
          then " - " +:+ Py.str (ConfigRole.short_description config_role)
          else EmptyString)]
  ++ (if Py.truthy (ConfigRole.description config_role)
      then ["###     " +:+ Py.str (ConfigRole.description config_role)]
      else [])
  ++ [Py.str_mul "#" 64; EmptyString].

Definition block_trailer (config_role : ConfigRole.t) (secrets : bool)
  : list string :=
  (if negb secrets && has_secrets config_role then [SECRETS_NOTE] else [])
  ++ [EmptyString].

(** The default [parse_role] resolves for a variable, by precedence. *)
Definition resolved_default (defaults : list (string * yaml))
    (var_name : string) (meta : yaml) : yaml :=
  match Py.dict_lookup var_name defaults with
  | Some v => v
  | None =>
      match meta with
      | YDict md => default YNone (Py.dict_lookup "default" md)
      | _ => YNone
      end
  end.

(** The mapping read from a role's defaults file ([{}] without one). *)
Definition defaults_of (p : project) (role : string) : list (string * yaml) :=
  match defaults_file p role with
  | Some (YDict d) => d
  | _ => []
  end.

(** The lines of the properties a pass renders, or the marker. *)
Definition block_body (config_role : ConfigRole.t) (secrets : bool)
  : list string :=
  match ConfigRole.properties config_role with
  | [] => [NO_OPTIONS]
  | props => flat_map property_lines (List.filter (rendered secrets) props)
  end.

Definition first_char (s : string) : option ascii :=
  match s with
  | EmptyString => None
  | String c _ => Some c
  end.

Fixpoint has_colon (s : string) : bool :=
  match s with
  | EmptyString => false
  | String c s' => bool_decide (c = ":"%char) || has_colon s'
  end.


Definition as_dict (v : yaml) : list (string * yaml) :=
  match v with
  | YDict d => d
  | _ => []
  end.

(** The description a specification declares for the role, under
    [argument_specs.main]; the empty string when it declares none. *)
Definition declared_description (specs : yaml) : result yaml :=
  a ← Py.get specs "argument_specs" (YDict []);
  m ← Py.get a "main" (YDict []);
  Py.get m "description" (YStr "").

(** ** Example projects *)

Definition dep_entry (r : string) : yaml := YDict [("role", YStr r)].

Definition deps_doc (rs : list string) : yaml :=
  YDict [("dependencies", YList (map dep_entry rs))].

Definition no_file : string → option yaml := λ _, None.

(** Role A depends on B and B depends on A. *)
Definition cyclic_project : project := {|
  role_is_dir r := bool_decide (r = "A") || bool_decide (r = "B");
  meta_file r :=
    if bool_decide (r = "A") then Some (deps_doc ["B"])
    else if bool_decide (r = "B") then Some (deps_doc ["A"])
    else None;
  specs_file := no_file;
  defaults_file := no_file;
  main_file := YList []
|}.

(** web depends on nginx and common, nginx depends on common. *)
Definition layered_project : project := {|
  role_is_dir r :=
    bool_decide (r = "web") || bool_decide (r = "nginx")
    || bool_decide (r = "common");
  meta_file r :=
    if bool_decide (r = "web") then Some (deps_doc ["nginx"; "common"])
    else if bool_decide (r = "nginx") then Some (deps_doc ["common"])
    else None;
  specs_file := no_file;
  defaults_file := no_file;
  main_file :=
    YList [YDict [("hosts", YStr "web"); ("roles", YList [YStr "web"])];
           YDict [("hosts", YStr "db"); ("roles", YList [YStr "postgres"])];
           YDict [("hosts", YStr "none"); ("tags", YList [YStr "shared"]);
                  ("roles", YList [YStr "common"])]]
|}.

Definition layered_rank (r : string) : nat :=
  if bool_decide (r = "web") then 2
  else if bool_decide (r = "nginx") then 1
  else 0.

(** A project with documented roles: nginx has a description, a required
    option with a default and a secret option; app declares a default that
    its defaults file overrides; bare has a specification without options;
    plain has no specification. *)
Definition nginx_specs : yaml :=
  YDict [("argument_specs",
          YDict [("main",
                  YDict [("short_description", YStr "web server");
                         ("description", YStr "Installs nginx");
                         ("options",
                          YDict [("port",
                                  YDict [("type", YStr "int");
                                         ("description", YStr " Listening port ");
                                         ("required", YBool true);
                                         ("default", YInt 80)]);
                                 ("tls_key",
                                  YDict [("type", YStr "str");
                                         ("description", YStr "TLS private key");
                                         ("x-secret", YBool true)])])])])].

Definition app_specs : yaml :=
  YDict [("argument_specs",
          YDict [("main",
                  YDict [("options",
                          YDict [("x", YDict [("default", YInt 5)]);
                                 ("y", YDict [("default", YInt 7)]);
                                 ("z", YDict [])])])])].

Definition bare_specs : yaml :=
  YDict [("argument_specs",
          YDict [("main", YDict [("short_description", YStr "nothing to set")])])].

Definition documented_project : project := {|
  role_is_dir r :=
    bool_decide (r = "nginx") || bool_decide (r = "app")
    || bool_decide (r = "bare") || bool_decide (r = "plain");
  meta_file := no_file;
  specs_file r :=
    if bool_decide (r = "nginx") then Some nginx_specs
    else if bool_decide (r = "app") then Some app_specs
    else if bool_decide (r = "bare") then Some bare_specs
    else None;
  defaults_file r :=
    if bool_decide (r = "app") then Some (YDict [("x", YInt 10)]) else None;
  main_file :=
    YList [YDict [("hosts", YStr "web");
                  ("roles", YList [YStr "nginx"; YStr "bare"])]]
|}.



Definition nginx_role : ConfigRole.t :=
  Eval vm_compute in
    match parse_role documented_project "nginx" with
    | Ok r => r
    | Raise _ => ConfigRole.mk "nginx" YNone YNone []
    end.

Definition app_role : ConfigRole.t :=
  Eval vm_compute in
    match parse_role documented_project "app" with
    | Ok r => r
    | Raise _ => ConfigRole.mk "app" YNone YNone []
    end.

Definition tls_key_property : ConfigProperty.t :=
  ConfigProperty.mk "tls_key" (YStr "str") (YStr "TLS private key")
                    (YBool false) YNone (YBool true).

(** An inventory in which the host w1 is listed under two groups and a
    host named all is listed under the group web. *)
Definition shadowing_inventory : yaml :=
  YDict [("all",
          YDict [("children",
                  YDict [("web",
                          YDict [("hosts",
                                  YDict [("w1", YNone); ("all", YNone)])]);
                         ("db",
                          YDict [("hosts",
                                  YDict [("d1", YNone); ("w1", YNone)])])])])].

Definition shadowing_hosts : list ConfigHost.t :=
  [shared_host;
   ConfigHost.mk (YStr "w1") "web"; ConfigHost.mk (YStr "all") "web";
   ConfigHost.mk (YStr "d1") "db"; ConfigHost.mk (YStr "w1") "db"].

Definition shadowing_closures : list (pykey * gset string) :=
  [(KStr "all", {["web"; "nginx"; "common"]});
   (KStr "w1", {["postgres"; "common"]});
   (KStr "d1", {["postgres"; "common"]})].

(** ** find_playbook and the command line *)

Definition PLAYBOOK_AUTODETECT_NAMES : list string :=
  ["playbook.yml"; "site.yml"; "main.yml"; "deploy.yml"].

(** [is_file] tells which paths, taken from the working directory, are
    files. *)
Definition find_playbook (is_file : string → bool) : option string :=
  List.find is_file PLAYBOOK_AUTODETECT_NAMES.

Definition AUTODETECT : string := "(autodetect)".

(** The arguments as [argparse] hands them over: the positional path (the
    marker [AUTODETECT] when left out), the value of [--inventory-file]
    ([None] when the option or its value is left out) and the
    [--process-shared] switch. *)
Record arguments : Type := {
  playbook_main_file : string;
  inventory_file : option string;
  process_shared : bool
}.

(** What the main block finds on disk: which paths are files, the project
    below the directory of a main file (with that file decoded as its
    playbook), and the decoded default inventory
    [inventory/.hosts.yml.example] of that directory where it exists. *)
Record world : Type := {
  is_file : string → bool;
  project_at : string → project;
  default_inventory : string → option yaml
}.

(** The value [HostsParser.inventory_file] holds: a path, given here by the
    decoded file it leads to, or the string [argparse] delivered, which the
    main block passes on as it is. *)
Inductive inventory_ref : Type :=
| InventoryPath (content : option yaml)
| InventoryStr (s : string).

(** [HostsParser(inventory_file=f).get_hosts(include_shared)]: the method
    starts with [self.inventory_file.exists()], which a string does not
    have. *)
Definition hosts_parser_get_hosts (f : inventory_ref) (include_shared : bool)
  : result (list ConfigHost.t) :=
  match f with
  | InventoryPath content => get_hosts content include_shared
  | InventoryStr _ => Raise AttributeError
  end.

(** How a run ends: [exit(code)], an exception nobody catches, or the end
    of the script. *)
Inductive outcome : Type :=
| Exit (code : Z)
| Uncaught (e : exn)
| Completed.

(** The block under [if __name__ == "__main__"], after [parse_args]. *)
Definition main (w : world) (depth : nat) (args : arguments)
  : list written_file * outcome :=
  let found :=
    if bool_decide (playbook_main_file args = AUTODETECT)
    then find_playbook (is_file w)
    else if is_file w (playbook_main_file args)
         then Some (playbook_main_file args)
         else None in
  match found with
  | None => ([], Exit 1)
  | Some main_file =>
      let inventory :=
        match inventory_file args with
        | Some s =>
            if Py.truthy (YStr s) then InventoryStr s
            else InventoryPath (default_inventory w main_file)
        | None => InventoryPath (default_inventory w main_file)
        end in
      match hosts_parser_get_hosts inventory (process_shared args) with
      | Raise e => ([], Uncaught e)
      | Ok hosts =>
          let '(written, r) := generate (project_at w main_file) depth hosts in
          (written, match r with Ok _ => Completed | Raise e => Uncaught e end)
      end
  end.

(** The playbook the main block settles on, if any. *)
Definition playbook_found (w : world) (args : arguments) : option string :=
  if bool_decide (playbook_main_file args = AUTODETECT)
  then find_playbook (is_file w)
  else if is_file w (playbook_main_file args)
       then Some (playbook_main_file args)
       else None.

(** ** Further notions *)

(** What [parse_role] takes for [argument_specs.main] of a specification:
    the document itself when it is empty. *)
Definition main_specs (specs : yaml) : result yaml :=
  if Py.truthy specs
  then a ← Py.get specs "argument_specs" (YDict []);
       Py.get a "main" (YDict [])
  else Ok specs.

(** The role [parse_role] returns when it finds nothing documented. *)
Definition undocumented_role (role : string) : ConfigRole.t :=
  ConfigRole.mk (Py.path_name role) (YStr "") (YStr "") [].

(** A project whose roles have a specification file that documents nothing:
    an empty file for the role empty, no main entry point for the others. *)
Definition undocumented_project : project := {|
  role_is_dir := λ _, true;
  meta_file := no_file;
  specs_file := λ r,
    if bool_decide (r = "empty") then Some YNone
    else Some (YDict [("argument_specs", YDict [("other", YDict [])])]);
  defaults_file := λ _, Some (YDict [("x", YInt 1)]);
  main_file := YList []
|}.

(** The copy-paste line of a property. *)
Definition value_line (prop : ConfigProperty.t) : string :=
  ConfigProperty.name prop +:+ ": "
    +:+ (match ConfigProperty.default prop with
         | YNone => EmptyString
         | dv => Py.str dv
         end).


(** The names an item of a [roles] sequence contributes. *)
Definition item_names (item : yaml) (k : pykey) : Prop :=
  match item with
  | YStr s => k = KStr s
  | YDict d => ∃ r, Py.dict_lookup "role" d = Some r ∧ Py.hash_key r = Ok k
  | _ => False
  end.

(** An item whose [role] cannot be stored in a set. *)
Definition unhashable_role (item : yaml) : bool :=
  match item with
  | YDict d =>
      match Py.dict_lookup "role" d with
      | Some (YList _) | Some (YDict _) => true
      | _ => false
      end
  | _ => false
  end.

(** An inventory as a document: top-level entries holding groups, a group
    holding hosts with their variables, or no [hosts] key at all. *)
Definition group_doc (hosts : option (list (string * yaml))) : yaml :=
  match hosts with
  | Some hs => YDict [("hosts", YDict hs)]
  | None => YDict []
  end.

Definition inventory_doc
    (tops : list (string * list (string * option (list (string * yaml)))))
  : yaml :=
  YDict (map (λ top,
                (top.1,
                 YDict [("children",
                         YDict (map (λ g, (g.1, group_doc g.2)) top.2))]))
             tops).

Definition group_hosts (g : string * option (list (string * yaml)))
  : list ConfigHost.t :=
  map (λ h, ConfigHost.mk (YStr h.1) g.1) (default [] g.2).

(** The two files of a host. *)
Definition example_file_names (name : pykey) : list (pykey * string) :=
  match name with
  | KStr h =>
      [(name, "." +:+ (h +:+ SECRET_FILE_SUFFIX) +:+ ".yml.example");
       (name, "." +:+ h +:+ ".yml.example")]
  | _ => []
  end.

(** A playbook whose second entry has no [hosts]. *)
Definition importing_project : project := {|
  role_is_dir := λ _, false;
  meta_file := no_file;
  specs_file := no_file;
  defaults_file := no_file;
  main_file :=
    YList [YDict [("hosts", YStr "web"); ("roles", YList [YStr "nginx"])];
           YDict [("import_playbook", YStr "db.yml")]]
|}.

(** A role whose option describes itself by a list of lines. *)
Definition listed_description_project : project := {|
  role_is_dir := λ _, true;
  meta_file := no_file;
  specs_file := λ _,
    Some (YDict [("argument_specs",
                  YDict [("main",
                          YDict [("options",
                                  YDict [("port",
                                          YDict [("description",
                                                  YList [YStr "Port";
                                                         YStr "to listen on"])])])])])]);
  defaults_file := no_file;
  main_file := YList []
|}.

Definition layered_world : world := {|
  is_file f := bool_decide (f = "site.yml");
  project_at := λ _, layered_project;
  default_inventory := λ _, Some shadowing_inventory
|}.

(** * Properties *)

(** ** Results and loops *)

Lemma bind_Ok_inv {A B : Type} (m : result A) (f : A → result B) (b : B) :
  m ≫= f = Ok b → ∃ a, m = Ok a ∧ f a = Ok b.
Proof. destruct m as [a|e]; simpl; [eauto | discriminate]. Qed.


Lemma for_each_app {A S : Type} (body : S → A → result S) (l1 l2 : list A) (s : S) :
  for_each body (l1 ++ l2) s = for_each body l1 s ≫= for_each body l2.
Proof.
  revert s. induction l1 as [|x l1 IH]; intros s; simpl; [done|].
  destruct (body s x) as [s'|e]; simpl; [apply IH | done].
Qed.

(** ** extract_role_names *)

Lemma extract_role_items_names (items : list yaml) (names : list string)
    (acc : gset pykey) :
  Forall2 (λ item n, ∀ role_names,
             extract_role_item role_names item = Ok (role_names ∪ {[KStr n]}))
          items names →
  for_each extract_role_item items acc
  = Ok (acc ∪ list_to_set (KStr <$> names)).
Proof.
  intros H. revert acc.
  induction H as [|item n items names Hitem _ IH]; intros acc; simpl.
  - by rewrite (right_id_L ∅ (∪)).
  - rewrite Hitem. simpl. rewrite IH. by rewrite (assoc_L (∪)).
Qed.

(** C9: the three supported representations of a task's roles, a sequence
    of bare names, a sequence of mappings with a role key (whatever other
    keys they hold) and a mapping keyed by the names, are normalised by
    extract_role_names to the same set of names; the three inputs of the
    specification all give the set of a and b. *)
Theorem extract_role_names_three_shapes :
  (∀ (names : list string) (extra : string → list (string * yaml))
     (body : string → yaml),
     extract_role_names (YList (YStr <$> names))
     = Ok (list_to_set (KStr <$> names))
     ∧ extract_role_names
         (YList ((λ n, YDict (("role", YStr n) :: extra n)) <$> names))
       = Ok (list_to_set (KStr <$> names))
     ∧ extract_role_names (YDict ((λ n, (n, body n)) <$> names))
       = Ok (list_to_set (KStr <$> names)))
  ∧ extract_role_names (YList [YStr "a"; YStr "b"]) = Ok {[KStr "a"; KStr "b"]}
  ∧ extract_role_names
      (YList [YDict [("role", YStr "a")];
              YDict [("role", YStr "b"); ("tags", YList [YStr "x"])]])
    = Ok {[KStr "a"; KStr "b"]}
  ∧ extract_role_names (YDict [("a", YDict []); ("b", YDict [])])
    = Ok {[KStr "a"; KStr "b"]}.
Proof.
  split; [|repeat split; reflexivity].
  intros names extra body. unfold extract_role_names. split; [|split].
  - rewrite (extract_role_items_names _ names).
    + by rewrite (left_id_L ∅ (∪)).
    + induction names; constructor; done.
  - rewrite (extract_role_items_names _ names).
    + by rewrite (left_id_L ∅ (∪)).
    + induction names; constructor; done.
  - f_equal. f_equal.
    induction names as [|n names IH]; [done|]. simpl. f_equal. apply IH.
Qed.

Lemma extract_role_items_no_ValueError (entries : list yaml) (names : gset pykey) :
  for_each extract_role_item entries names ≠ Raise ValueError.
Proof.
  revert names. induction entries as [|item entries IH]; intros names; simpl.
  - discriminate.
  - destruct item as [| | |s|l|d]; simpl; try apply IH.
    destruct (Py.dict_lookup "role" d) as [r|]; simpl; [|apply IH].
    destruct r; simpl; try apply IH; discriminate.
Qed.

Lemma extract_role_items_skipped (entries : list yaml) (names : gset pykey) :
  forallb names_no_role entries = true →
  for_each extract_role_item entries names = Ok names.
Proof.
  revert names. induction entries as [|item entries IH]; intros names H; simpl in *.
  - done.
  - apply andb_true_iff in H as [Hi Hl].
    destruct item as [| | |s|l|d]; simpl in *; try discriminate; try by apply IH.
    destruct (Py.dict_lookup "role" d) as [r|] eqn:E; simpl in *.
    + discriminate.
    + by apply IH.
Qed.

(** C4 (as the code has it): extract_role_names raises its
    unexpected-roles-data error exactly for a value that is neither a
    sequence, a mapping nor a string; a mapping and a string always give a
    set; a sequence never raises this error, whatever its items are, and
    items that are neither strings nor mappings holding a role key
    contribute no name. *)
Theorem extract_role_names_error_iff :
  (∀ roles_data,
     extract_role_names roles_data = Raise ValueError
     ↔ roles_container roles_data = false)
  ∧ (∀ roles_data,
       match roles_data with YDict _ | YStr _ => True | _ => False end →
       ∃ names, extract_role_names roles_data = Ok names)
  ∧ (∀ entries,
       forallb names_no_role entries = true →
       extract_role_names (YList entries) = Ok ∅).
Proof.
  split; [|split].
  - intros v. destruct v as [| | |s|l|d]; simpl; split; try done.
    intros H. by apply extract_role_items_no_ValueError in H.
  - intros v. destruct v as [| | |s|l|d]; simpl; try done; eauto.
  - intros entries H. by apply extract_role_items_skipped.
Qed.

Lemma extract_role_names_error_iff_witness :
  extract_role_names (YList [YInt 1; YDict [("tags", YStr "x")]; YNone]) = Ok ∅.
Proof.
  apply (proj2 (proj2 extract_role_names_error_iff)
           [YInt 1; YDict [("tags", YStr "x")]; YNone]).
  reflexivity.
Defined.

(** C4 fails as stated: a string, and a sequence of numbers, are none of
    the three supported representations, and extract_role_names returns a
    set for each instead of raising. *)
Lemma extract_role_names_accepts_other_shapes :
  supported_roles_shape (YStr "ab") = false
  ∧ extract_role_names (YStr "ab") = Ok {[KStr "a"; KStr "b"]}
  ∧ supported_roles_shape (YList [YInt 1; YInt 2]) = false
  ∧ extract_role_names (YList [YInt 1; YInt 2]) = Ok ∅.
Proof. repeat split; vm_compute; reflexivity. Qed.

(** ** get_dependant_roles *)

Section Dependencies.
Variable p : project.

Lemma for_each_dependencies (f : string → result (gset string))
    (entries : list yaml) (names : list string) (acc : gset string) :
  map_result dependency_name entries = Ok names →
  for_each (λ roles dep,
              dep_role ← Py.getitem dep "role";
              r ← Py.path_component dep_role;
              sub ← f r;
              Ok (roles ∪ {[r]} ∪ sub)) entries acc
  = for_each (λ roles r, sub ← f r; Ok (roles ∪ {[r]} ∪ sub)) names acc.
Proof.
  revert names acc. induction entries as [|dep entries IH]; intros names acc H.
  - by injection H as <-.
  - simpl in H.
    apply bind_Ok_inv in H as (r & Hr & H).
    apply bind_Ok_inv in H as (rest & Hrest & [= <-]).
    apply bind_Ok_inv in Hr as (dep_role & E1 & E2).
    simpl. rewrite E1. simpl. rewrite E2. simpl.
    destruct (f r) as [sub|]; simpl; [|done]. by apply IH.
Qed.

Lemma get_dependant_roles_step (depth : nat) (role : string) (deps : list string) :
  declared_dependencies p role = Ok deps →
  get_dependant_roles p (S depth) role
  = for_each (λ roles r,
                sub ← get_dependant_roles p depth r;
                Ok (roles ∪ {[r]} ∪ sub)) deps ∅.
Proof.
  unfold declared_dependencies. simpl.
  destruct (role_is_dir p role); simpl; [|by intros [= <-]].
  destruct (meta_file p role) as [doc|]; [|by intros [= <-]].
  destruct (Py.get _ "dependencies" _) as [deps'|]; simpl; [|done].
  destruct (Py.iter deps') as [entries|]; simpl; [|done].
  apply for_each_dependencies.
Qed.

Lemma for_each_union (f : string → result (gset string))
    (Q : string → string → Prop) (deps : list string) (acc : gset string) :
  (∀ d, d ∈ deps → ∃ s, f d = Ok s ∧ ∀ x, x ∈ s ↔ Q d x) →
  ∃ s', for_each (λ roles r, sub ← f r; Ok (roles ∪ {[r]} ∪ sub)) deps acc = Ok s'
        ∧ ∀ x, x ∈ s' ↔ x ∈ acc ∨ ∃ d, d ∈ deps ∧ (x = d ∨ Q d x).
Proof.
  revert acc. induction deps as [|d deps IH]; intros acc H; simpl.
  - exists acc. split; [done|]. intros x. split; [by left|].
    intros [?|(d & Hd & _)]; [done|]. by apply elem_of_nil in Hd.
  - destruct (H d) as (s & -> & Hs); [by left|]. simpl.
    destruct (IH (acc ∪ {[d]} ∪ s)) as (s' & -> & Hs').
    { intros d' Hd'. apply H. by right. }
    exists s'. split; [done|]. intros x. rewrite Hs'.
    rewrite !elem_of_union, elem_of_singleton, Hs. split.
    + intros [[[? | ->] | ?] | (d' & Hd' & Hx)].
      * by left.
      * right. exists d. split; [by left | by left].
      * right. exists d. split; [by left | by right].
      * right. exists d'. split; [by right | done].
    + intros [?|(d' & Hd' & Hx)]; [by left; left; left|].
      apply elem_of_cons in Hd' as [-> | Hd'].
      * left. destruct Hx as [-> | ?]; [left; by right | by right].
      * right. eauto.
Qed.

Lemma depends_on_closure (role x : string) (deps : list string) :
  declared_dependencies p role = Ok deps →
  tc (depends_on p) role x
  ↔ ∃ d, d ∈ deps ∧ (x = d ∨ tc (depends_on p) d x).
Proof.
  intros Hdeps. split.
  - intros Htc.
    destruct Htc as [r y (deps' & E & Hy) | r y z (deps' & E & Hy) Hz];
      rewrite Hdeps in E; injection E as <-; eauto.
  - intros (d & Hd & [-> | Htc]).
    + apply tc_once. by exists deps.
    + eapply tc_l; [|done]. by exists deps.
Qed.

(** C1 (as the code has it): on a role graph without cycle, where every
    role depends only on roles of lower rank, with well-formed dependency
    metadata, get_dependant_roles returns as soon as the recursion limit
    exceeds the rank of the role, and the set returned is exactly the
    transitive closure of the declared dependencies. *)
Theorem get_dependant_roles_acyclic_closure
    (rank : string → nat) (depth : nat) (role : string) :
  (∀ r, ∃ deps, declared_dependencies p r = Ok deps) →
  (∀ r d, depends_on p r d → rank d < rank r) →
  rank role < depth →
  ∃ roles, get_dependant_roles p depth role = Ok roles
           ∧ ∀ x, x ∈ roles ↔ tc (depends_on p) role x.
Proof.
  intros Hwf Hrank. revert role.
  induction depth as [|depth IH]; intros role Hlt; [lia|].
  destruct (Hwf role) as [deps Hdeps].
  rewrite (get_dependant_roles_step _ _ _ Hdeps).
  destruct (for_each_union (get_dependant_roles p depth)
              (tc (depends_on p)) deps ∅) as (s & -> & Hs).
  { intros d Hd. apply IH.
    assert (rank d < rank role) by (apply Hrank; by exists deps). lia. }
  exists s. split; [done|]. intros x.
  rewrite Hs, (depends_on_closure _ _ _ Hdeps). split; [|by right].
  intros [Hx|Hx]; [|done]. by apply not_elem_of_empty in Hx.
Qed.

End Dependencies.

Lemma layered_project_well_formed (r : string) :
  ∃ deps, declared_dependencies layered_project r = Ok deps.
Proof.
  unfold declared_dependencies, layered_project. simpl.
  repeat case_bool_decide; simpl; eauto.
Qed.

Lemma layered_project_ranked (r d : string) :
  depends_on layered_project r d → layered_rank d < layered_rank r.
Proof.
  intros (deps & E & Hd). revert E.
  unfold declared_dependencies, layered_project. simpl.
  repeat case_bool_decide; subst; simpl; intros [= <-];
    repeat (apply elem_of_cons in Hd as [-> | Hd]; [vm_compute; lia|]);
    by apply elem_of_nil in Hd.
Qed.

Lemma get_dependant_roles_acyclic_closure_witness :
  ∃ roles, get_dependant_roles layered_project 3 "web" = Ok roles
           ∧ ∀ x, x ∈ roles ↔ tc (depends_on layered_project) "web" x.
Proof.
  apply (get_dependant_roles_acyclic_closure layered_project layered_rank 3 "web").
  - exact layered_project_well_formed.
  - exact layered_project_ranked.
  - vm_compute. lia.
Defined.

Lemma cyclic_project_recursion (depth : nat) (role : string) :
  role = "A" ∨ role = "B" →
  get_dependant_roles cyclic_project depth role = Raise RecursionError.
Proof.
  revert role. induction depth as [|depth IH]; intros role Hrole; [done|].
  destruct Hrole as [-> | ->]; simpl.
  - rewrite (IH "B"); [done | by right].
  - rewrite (IH "A"); [done | by left].
Qed.

(** C1 fails as stated: on the cycle where A depends on B and B on A,
    get_dependant_roles returns no set at any recursion limit, for a query
    starting at either role; every run ends in RecursionError. *)
Lemma get_dependant_roles_cycle_never_returns :
  ¬ (∃ depth roles, get_dependant_roles cyclic_project depth "A" = Ok roles)
  ∧ ¬ (∃ depth roles, get_dependant_roles cyclic_project depth "B" = Ok roles).
Proof.
  split; intros (depth & roles & H);
    rewrite cyclic_project_recursion in H; auto; discriminate.
Qed.

(** ** build_role_config *)

Lemma render_loop (secrets : bool) (props : list ConfigProperty.t)
    (block : list string) :
  fold_left (λ block prop,
               if rendered secrets prop
               then block ++ property_lines prop
               else block) props block
  = block ++ flat_map property_lines (List.filter (rendered secrets) props).
Proof.
  revert block. induction props as [|prop props IH]; intros block; simpl.
  - by rewrite app_nil_r.
  - rewrite IH. destruct (rendered secrets prop); simpl; [|done].
    by rewrite <- app_assoc.
Qed.

Lemma build_role_config_parts (config_role : ConfigRole.t) (secrets : bool) :
  build_role_config config_role secrets
  = block_header config_role ++ block_body config_role secrets
    ++ block_trailer config_role secrets.
Proof.
  unfold build_role_config, block_header, block_body, block_trailer.
  destruct (ConfigRole.properties config_role) as [|prop props] eqn:E.
  - destruct (Py.truthy (ConfigRole.description config_role)),
      (negb secrets && has_secrets config_role); reflexivity.
  - rewrite render_loop.
    destruct (Py.truthy (ConfigRole.description config_role)),
      (negb secrets && has_secrets config_role);
      simpl; rewrite <- ?app_assoc; reflexivity.
Qed.

Lemma has_colon_app (s t : string) :
  has_colon (s +:+ t) = has_colon s || has_colon t.
Proof.
  induction s as [|c s IH]; [done|].
  change (String c s +:+ t) with (String c (s +:+ t)). simpl.
  by rewrite IH, orb_assoc.
Qed.

Lemma marker_not_in_property_lines (prop : ConfigProperty.t) :
  NO_OPTIONS ∉ property_lines prop.
Proof.
  unfold property_lines. rewrite !elem_of_app.
  intros [H|[H|[H|H]]].
  - apply list_elem_of_singleton in H.
    apply (f_equal first_char) in H. vm_compute in H. discriminate.
  - destruct (ConfigProperty.type prop);
      try (by apply elem_of_nil in H);
      apply list_elem_of_singleton in H;
      apply (f_equal first_char) in H; vm_compute in H; discriminate.
  - destruct (ConfigProperty.default prop);
      try (by apply elem_of_nil in H);
      apply list_elem_of_singleton in H;
      apply (f_equal first_char) in H; vm_compute in H; discriminate.
  - apply elem_of_cons in H as [H|H].
    + apply (f_equal has_colon) in H. rewrite !has_colon_app in H.
      change (has_colon ": ") with true in H.
      rewrite orb_true_r in H. vm_compute in H. discriminate.
    + apply list_elem_of_singleton in H. discriminate.
Qed.

Lemma marker_not_in_header (config_role : ConfigRole.t) :
  NO_OPTIONS ∉ block_header config_role.
Proof.
  unfold block_header. rewrite !elem_of_app. intros [H|[H|H]].
  - apply list_elem_of_singleton in H.
    apply (f_equal first_char) in H. vm_compute in H. discriminate.
  - destruct (Py.truthy (ConfigRole.description config_role));
      [|by apply elem_of_nil in H].
    apply list_elem_of_singleton in H.
    apply (f_equal first_char) in H. vm_compute in H. discriminate.
  - apply elem_of_cons in H as [H|H]; [vm_compute in H; discriminate|].
    apply list_elem_of_singleton in H. discriminate.
Qed.

Lemma marker_not_in_trailer (config_role : ConfigRole.t) (secrets : bool) :
  NO_OPTIONS ∉ block_trailer config_role secrets.
Proof.
  unfold block_trailer. rewrite elem_of_app. intros [H|H].
  - destruct (negb secrets && has_secrets config_role);
      [|by apply elem_of_nil in H].
    apply list_elem_of_singleton in H. vm_compute in H. discriminate.
  - apply list_elem_of_singleton in H. discriminate.
Qed.

Lemma marker_not_in_rendered (props : list ConfigProperty.t) :
  NO_OPTIONS ∉ flat_map property_lines props.
Proof.
  induction props as [|prop props IH]; cbn [flat_map].
  - apply not_elem_of_nil.
  - rewrite elem_of_app. intros [H|H]; [|done].
    by apply marker_not_in_property_lines in H.
Qed.

Lemma has_secrets_no_properties (config_role : ConfigRole.t) :
  ConfigRole.properties config_role = [] → has_secrets config_role = false.
Proof. unfold has_secrets. by intros ->. Qed.

Lemma nothing_rendered (secrets : bool) (props : list ConfigProperty.t) :
  Forall (λ prop, rendered secrets prop = false) props →
  List.filter (rendered secrets) props = [].
Proof.
  induction 1 as [|prop props H _ IH]; simpl; [done|]. by rewrite H.
Qed.

(** C8: build_role_config emits the marker line (no options) exactly when
    the role has no property at all: the block is then the header, the
    marker and a blank line. A role with properties none of which matches
    the pass gets the header and the closing lines only, neither the
    marker nor any property line. *)
Theorem no_options_marker (config_role : ConfigRole.t) (secrets : bool) :
  (NO_OPTIONS ∈ build_role_config config_role secrets
   ↔ ConfigRole.properties config_role = [])
  ∧ (ConfigRole.properties config_role = [] →
     build_role_config config_role secrets
     = block_header config_role ++ [NO_OPTIONS; EmptyString])
  ∧ (ConfigRole.properties config_role ≠ [] →
     Forall (λ prop, rendered secrets prop = false)
            (ConfigRole.properties config_role) →
     build_role_config config_role secrets
     = block_header config_role ++ block_trailer config_role secrets).
Proof.
  rewrite build_role_config_parts. unfold block_body. split; [|split].
  - destruct (ConfigRole.properties config_role) as [|prop props] eqn:E.
    + split; [done|]. intros _. rewrite !elem_of_app. right; left. by left.
    + split; [|done]. rewrite !elem_of_app. intros [H|[H|H]]; exfalso.
      * by apply marker_not_in_header in H.
      * by apply marker_not_in_rendered in H.
      * by apply marker_not_in_trailer in H.
  - intros E. unfold block_trailer.
    rewrite (has_secrets_no_properties _ E), E, andb_false_r. done.
  - intros Hne Hnone.
    destruct (ConfigRole.properties config_role) as [|prop props]; [done|].
    by rewrite (nothing_rendered _ _ Hnone).
Qed.

Lemma no_options_marker_witness :
  build_role_config app_role true
  = block_header app_role ++ block_trailer app_role true.
Proof.
  apply (proj2 (proj2 (no_options_marker app_role true))).
  - discriminate.
  - repeat constructor.
Defined.





(** Whatever the flag holds, no property is selected by both passes. *)
Lemma rendered_never_both (prop : ConfigProperty.t) :
  ¬ (rendered true prop = true ∧ rendered false prop = true).
Proof.
  unfold rendered, Py.eq_bool. intros [Ht Hf].
  destruct (ConfigProperty.secret prop) as [|b|z| | |]; try discriminate.
  - by destruct b.
  - apply Z.eqb_eq in Ht, Hf. lia.
Qed.

(** The flag is read from the specification unchecked: one that is not a
    boolean, such as the string yes, equals neither True nor False, and the
    property is then selected by neither pass. *)
Example string_flag_selected_by_no_pass :
  let prop := ConfigProperty.mk "token" YNone (YStr "") (YBool false) YNone
                                (YStr "yes") in
  rendered true prop = false ∧ rendered false prop = false.
Proof. split; reflexivity. Qed.


(** ** generate_example_config *)






(** ** parse_role *)

Lemma parse_role_option_inv (defaults : yaml)
    (st st' : yaml * list ConfigProperty.t) (entry : string * yaml) :
  parse_role_option defaults st entry = Ok st' →
  ∃ prop, st' = (ConfigProperty.description prop, st.2 ++ [prop])
          ∧ ConfigProperty.name prop = entry.1
          ∧ ConfigProperty.default prop
            = resolved_default (as_dict defaults) entry.1 entry.2.
Proof.
  destruct entry as [var_name meta]. unfold parse_role_option.
  destruct meta as [| | | | |md]; try discriminate. simpl.
  destruct (Py.strip _) as [description|]; simpl; [|discriminate].
  destruct defaults as [| | | | |dd]; try discriminate. simpl.
  intros [= <-]. eexists (ConfigProperty.mk _ _ _ _ _ _).
  split; [reflexivity|]. split; [done|].
  unfold resolved_default. simpl.
  by destruct (Py.dict_lookup var_name dd).
Qed.

Lemma parse_role_options_inv (defaults : yaml) (entries : list (string * yaml))
    (st st' : yaml * list ConfigProperty.t) :
  for_each (parse_role_option defaults) entries st = Ok st' →
  ∃ props,
    st'.2 = st.2 ++ props
    ∧ Forall2 (λ entry prop,
                 ConfigProperty.name prop = entry.1
                 ∧ ConfigProperty.default prop
                   = resolved_default (as_dict defaults) entry.1 entry.2)
              entries props
    ∧ st'.1 = from_option ConfigProperty.description st.1 (last props).
Proof.
  revert st. induction entries as [|entry entries IH]; intros st H; simpl in H.
  - injection H as <-. exists [].
    split; [symmetry; apply app_nil_r|]. split; [constructor | done].
  - apply bind_Ok_inv in H as (st1 & H1 & H).
    apply parse_role_option_inv in H1 as (prop & -> & Hname & Hdefault).
    apply IH in H as (props & E & Hall & Hdesc). simpl in *.
    exists (prop :: props). split; [by rewrite E, <- app_assoc|].
    split; [by constructor|].
    rewrite Hdesc, last_cons. by destruct (last props).
Qed.

Lemma dict_lookup_truthy (k : string) (d : list (string * yaml)) (v : yaml) :
  Py.dict_lookup k d = Some v → Py.truthy (YDict d) = true.
Proof. by destruct d. Qed.

Lemma get_lookup (k : string) (d : list (string * yaml)) (v dflt : yaml) :
  Py.dict_lookup k d = Some v → Py.get (YDict d) k dflt = Ok v.
Proof. unfold Py.get. by intros ->. Qed.

(** The defaults [parse_role] consults. *)
Lemma parse_role_defaults (p : project) (role : string) :
  as_dict (match defaults_file p role with
           | Some d => if Py.truthy d then d else YDict []
           | None => YDict []
           end) = defaults_of p role.
Proof.
  unfold defaults_of. destruct (defaults_file p role) as [d|]; [|done].
  destruct d as [|b|z|s|l|dd]; simpl; try done.
  - by destruct b.
  - by destruct (negb _).
  - by destruct (negb _).
  - by destruct l.
  - by destruct dd.
Qed.

(** What [parse_role] returns for a role whose specification holds an
    options mapping: the properties of the options in order, with their
    names and resolved defaults, and as description the one the loop over
    the options left in the variable. *)
Lemma parse_role_documented (p : project) (role : string)
    (config_role : ConfigRole.t)
    (specs arg_specs main options : list (string * yaml)) :
  parse_role p role = Ok config_role →
  specs_file p role = Some (YDict specs) →
  Py.dict_lookup "argument_specs" specs = Some (YDict arg_specs) →
  Py.dict_lookup "main" arg_specs = Some (YDict main) →
  Py.dict_lookup "options" main = Some (YDict options) →
  Forall2 (λ entry prop,
             ConfigProperty.name prop = entry.1
             ∧ ConfigProperty.default prop
               = resolved_default (defaults_of p role) entry.1 entry.2)
          options (ConfigRole.properties config_role)
  ∧ ConfigRole.description config_role
    = from_option ConfigProperty.description
        (default (YDict []) (Py.dict_lookup "description" main))
        (last (ConfigRole.properties config_role)).
Proof.
  intros H Hspecs Hargs Hmain Hoptions. unfold parse_role in H.
  rewrite Hspecs in H. cbv beta iota zeta in H.
  rewrite (dict_lookup_truthy _ _ _ Hargs) in H.
  rewrite (get_lookup _ _ _ _ Hargs) in H.
  change (Ok (YDict arg_specs) ≫= (λ a, Py.get a "main" (YDict [])))
    with (Py.get (YDict arg_specs) "main" (YDict [])) in H.
  rewrite (get_lookup _ _ _ _ Hmain) in H.
  apply bind_Ok_inv in H as (m & [= <-] & H).
  rewrite (dict_lookup_truthy _ _ _ Hoptions) in H.
  rewrite (get_lookup _ _ _ _ Hoptions) in H.
  apply bind_Ok_inv in H as (ds & [= <-] & H).
  apply bind_Ok_inv in H as (o & [= <-] & H).
  apply bind_Ok_inv in H as (st & H & [= <-]).
  cbn [ConfigRole.properties ConfigRole.description fst snd].
  destruct options as [|entry options].
  - injection H as <-. split; [constructor | done].
  - cbn [Py.truthy] in H.
    apply parse_role_options_inv in H as (props & E & Hall & Hdesc).
    simpl in E. rewrite parse_role_defaults in Hall.
    rewrite E, Hdesc. by split.
Qed.

(** C6: for every option a role declares, the default parse_role resolves
    is the value the role's defaults file gives the variable when it
    defines it, otherwise the default declared in the option's metadata,
    otherwise none. *)
Theorem parse_role_default_precedence (p : project) (role : string)
    (config_role : ConfigRole.t)
    (specs arg_specs main options : list (string * yaml)) :
  parse_role p role = Ok config_role →
  specs_file p role = Some (YDict specs) →
  Py.dict_lookup "argument_specs" specs = Some (YDict arg_specs) →
  Py.dict_lookup "main" arg_specs = Some (YDict main) →
  Py.dict_lookup "options" main = Some (YDict options) →
  Forall2 (λ entry prop,
             ConfigProperty.name prop = entry.1
             ∧ ConfigProperty.default prop
               = resolved_default (defaults_of p role) entry.1 entry.2)
          options (ConfigRole.properties config_role).
Proof.
  intros H Hspecs Hargs Hmain Hoptions.
  by destruct (parse_role_documented _ _ _ _ _ _ _ H Hspecs Hargs Hmain Hoptions).
Qed.

Lemma parse_role_default_precedence_witness :
  Forall2 (λ entry prop,
             ConfigProperty.name prop = entry.1
             ∧ ConfigProperty.default prop
               = resolved_default [("x", YInt 10)] entry.1 entry.2)
          [("x", YDict [("default", YInt 5)]);
           ("y", YDict [("default", YInt 7)]);
           ("z", YDict [])]
          (ConfigRole.properties app_role).
Proof.
  exact (parse_role_default_precedence documented_project "app" app_role
           _ _ _ _ eq_refl eq_refl eq_refl eq_refl eq_refl).
Defined.

(** The example of C6: the specification declares the default 5 for x and
    the defaults file sets x to 10; the resolved default is 10. *)
Example parse_role_default_example :
  ConfigProperty.default <$> ConfigRole.properties app_role
  = [YInt 10; YInt 7; YNone].
Proof. reflexivity. Qed.

(** C5 fails on the code: the role nginx declares the description
    Installs nginx under argument_specs.main, and the ConfigRole parse_role
    returns carries the description of its last option instead. *)
Theorem parse_role_description_overwritten :
  declared_description nginx_specs = Ok (YStr "Installs nginx")
  ∧ ConfigRole.description <$> parse_role documented_project "nginx"
    = Ok (YStr "TLS private key").
Proof. split; reflexivity. Qed.

(** The defect behind C5 in general: as soon as a role declares an option,
    the description parse_role returns is the trimmed description of the
    last option, whatever argument_specs.main declares. *)
Lemma parse_role_description_last_option (p : project) (role : string)
    (config_role : ConfigRole.t)
    (specs arg_specs main options : list (string * yaml)) :
  parse_role p role = Ok config_role →
  specs_file p role = Some (YDict specs) →
  Py.dict_lookup "argument_specs" specs = Some (YDict arg_specs) →
  Py.dict_lookup "main" arg_specs = Some (YDict main) →
  Py.dict_lookup "options" main = Some (YDict options) →
  options ≠ [] →
  ∃ prop, last (ConfigRole.properties config_role) = Some prop
          ∧ ConfigRole.description config_role = ConfigProperty.description prop.
Proof.
  intros H Hspecs Hargs Hmain Hoptions Hne.
  destruct (parse_role_documented _ _ _ _ _ _ _ H Hspecs Hargs Hmain Hoptions)
    as [Hall ->].
  destruct Hall as [|entry prop options props _ _]; [done|].
  rewrite last_cons. destruct (last props) as [prop'|]; eauto.
Qed.

(** ** generate *)

Lemma dict_lookup_set_eq {K V : Type} `{EqDecision K} (k : K) (v : V)
    (d : list (K * V)) :
  Py.dict_lookup k (Py.dict_set k v d) = Some v.
Proof.
  induction d as [|[k' v'] d IH]; simpl.
  - by rewrite bool_decide_eq_true_2.
  - case_bool_decide as E; simpl.
    + subst k'. by rewrite bool_decide_eq_true_2.
    + by rewrite bool_decide_eq_false_2.
Qed.

Lemma dict_lookup_set_ne {K V : Type} `{EqDecision K} (k k' : K) (v : V)
    (d : list (K * V)) :
  k ≠ k' → Py.dict_lookup k' (Py.dict_set k v d) = Py.dict_lookup k' d.
Proof.
  intros Hne. induction d as [|[k0 v0] d IH]; simpl.
  - by rewrite bool_decide_eq_false_2.
  - case_bool_decide as E; simpl; [|by rewrite IH].
    subst k0. by rewrite !bool_decide_eq_false_2.
Qed.

Lemma hash_key_str (v : yaml) (s : string) :
  Py.hash_key v = Ok (KStr s) ↔ v = YStr s.
Proof.
  split; [|by intros ->].
  destruct v as [|b|z|s'|l|d]; simpl; try discriminate; congruence.
Qed.

Section Generate.
Variables (p : project) (depth : nat).

Let record_host (roles_per_host : list (pykey * gset string))
    (host : ConfigHost.t) : result (list (pykey * gset string)) :=
  roles ← accumulate_roles p depth (ConfigHost.group_name host);
  name ← Py.hash_key (ConfigHost.name host);
  Ok (Py.dict_set name roles roles_per_host).

Lemma record_hosts_other (name : string) (hosts : list ConfigHost.t)
    (d d' : list (pykey * gset string)) :
  Forall (λ h, ConfigHost.name h ≠ YStr name) hosts →
  for_each record_host hosts d = Ok d' →
  Py.dict_lookup (KStr name) d' = Py.dict_lookup (KStr name) d.
Proof.
  intros Hall. revert d.
  induction Hall as [|h hosts Hh _ IH]; intros d H; simpl in H.
  - by injection H as <-.
  - apply bind_Ok_inv in H as (d1 & H1 & H).
    apply bind_Ok_inv in H1 as (roles & _ & H1).
    apply bind_Ok_inv in H1 as (k & Hk & [= <-]).
    rewrite (IH _ H). apply dict_lookup_set_ne.
    intros ->. by apply hash_key_str in Hk.
Qed.

(** The entry of a host name after the first loop is the set accumulated
    for the last host of that name. *)
Lemma accumulate_hosts_last (hosts pre post : list ConfigHost.t)
    (host : ConfigHost.t) (name : string)
    (closures : list (pykey * gset string)) :
  accumulate_hosts p depth hosts = Ok closures →
  hosts = pre ++ host :: post →
  ConfigHost.name host = YStr name →
  Forall (λ h, ConfigHost.name h ≠ YStr name) post →
  ∃ roles, accumulate_roles p depth (ConfigHost.group_name host) = Ok roles
           ∧ Py.dict_lookup (KStr name) closures = Some roles.
Proof.
  unfold accumulate_hosts. fold record_host. intros H -> Hname Hpost.
  rewrite for_each_app in H. apply bind_Ok_inv in H as (d1 & _ & H).
  simpl in H. apply bind_Ok_inv in H as (d2 & H2 & H).
  apply bind_Ok_inv in H2 as (roles & Hroles & H2).
  rewrite Hname in H2. injection H2 as <-.
  exists roles. split; [done|].
  rewrite (record_hosts_other _ _ _ _ Hpost H). apply dict_lookup_set_eq.
Qed.

End Generate.

Lemma remove_shared_roles_lookup (closures : list (pykey * gset string))
    (shared : gset string) (name : pykey) :
  Py.dict_lookup (KStr SHARED_HOST_NAME) closures = Some shared →
  Py.dict_lookup name (remove_shared_roles closures)
  = (λ roles, if bool_decide (name = KStr SHARED_HOST_NAME)
              then roles else roles ∖ shared)
      <$> Py.dict_lookup name closures.
Proof.
  unfold remove_shared_roles. intros ->.
  induction closures as [|[k roles] closures IH]; simpl; [done|].
  repeat (case_bool_decide; simplify_eq/=); done.
Qed.

Lemma remove_shared_roles_disjoint (closures : list (pykey * gset string))
    (shared : gset string) (name : pykey) (roles : gset string) :
  Py.dict_lookup (KStr SHARED_HOST_NAME) closures = Some shared →
  (name, roles) ∈ remove_shared_roles closures →
  name ≠ KStr SHARED_HOST_NAME →
  roles ## shared.
Proof.
  unfold remove_shared_roles. intros -> Hin Hne.
  apply list_elem_of_fmap in Hin as ([k roles0] & E & _). simpl in E.
  case_bool_decide as E'; injection E as -> ->; [|done].
  apply disjoint_difference_l1. done.
Qed.

(** C2: when the shared host is processed, the role set generate ends up
    with for every other host is the set accumulate_roles computed for it
    minus the set computed for the shared host, and the shared host keeps
    its own; the subtraction is one pass over the sets of the first loop,
    made once that loop has computed them all; so every other host's final
    set is disjoint from the shared host's. *)
Theorem shared_roles_subtracted (p : project) (depth : nat)
    (hosts : list ConfigHost.t) (plan : list (pykey * gset string))
    (shared : gset string) :
  roles_per_host p depth hosts = Ok plan →
  Py.dict_lookup (KStr SHARED_HOST_NAME) plan = Some shared →
  (∃ closures,
     accumulate_hosts p depth hosts = Ok closures
     ∧ Py.dict_lookup (KStr SHARED_HOST_NAME) closures = Some shared
     ∧ plan = map (λ entry,
                     if bool_decide (entry.1 ≠ KStr SHARED_HOST_NAME)
                     then (entry.1, entry.2 ∖ shared)
                     else entry) closures)
  ∧ (∀ pre host post name,
       hosts = pre ++ host :: post →
       ConfigHost.name host = YStr name →
       Forall (λ h, ConfigHost.name h ≠ YStr name) post →
       ∃ closure,
         accumulate_roles p depth (ConfigHost.group_name host) = Ok closure
         ∧ Py.dict_lookup (KStr name) plan
           = Some (if bool_decide (name = SHARED_HOST_NAME)
                   then closure else closure ∖ shared))
  ∧ (∀ name roles,
       (name, roles) ∈ plan → name ≠ KStr SHARED_HOST_NAME → roles ## shared)
  ∧ generate p depth hosts = write_examples p plan.
Proof.
  unfold roles_per_host, generate. intros Hplan Hshared.
  destruct (accumulate_hosts p depth hosts) as [closures|] eqn:Hcl;
    [|discriminate].
  injection Hplan as <-.
  assert (Hsh : Py.dict_lookup (KStr SHARED_HOST_NAME) closures = Some shared).
  { destruct (Py.dict_lookup (KStr SHARED_HOST_NAME) closures)
      as [all_roles|] eqn:E.
    - rewrite (remove_shared_roles_lookup _ _ _ E), E in Hshared.
      by rewrite bool_decide_eq_true_2 in Hshared.
    - unfold remove_shared_roles in Hshared. rewrite E in Hshared. congruence. }
  split; [|split; [|split]].
  - exists closures. split; [done|]. split; [done|].
    unfold remove_shared_roles. by rewrite Hsh.
  - intros pre host post name Hhosts Hname Hpost.
    destruct (accumulate_hosts_last _ _ _ _ _ _ _ _ Hcl Hhosts Hname Hpost)
      as (closure & Hclosure & Hlookup).
    exists closure. split; [done|].
    rewrite (remove_shared_roles_lookup _ _ _ Hsh), Hlookup. simpl.
    f_equal. by repeat case_bool_decide; simplify_eq.
  - intros name roles. by apply remove_shared_roles_disjoint.
  - unfold roles_per_host. by rewrite Hcl.
Qed.

Lemma shadowing_plan :
  accumulate_hosts layered_project 3 shadowing_hosts = Ok shadowing_closures.
Proof. reflexivity. Qed.

Lemma shared_roles_subtracted_witness :
  Py.dict_lookup (KStr "d1") (remove_shared_roles shadowing_closures)
  = Some ({["postgres"; "common"]} ∖ {["web"; "nginx"; "common"]})
  ∧ ({["postgres"; "common"]} ∖ {["web"; "nginx"; "common"]} : gset string)
    ## {["web"; "nginx"; "common"]}.
Proof.
  assert (Hplan : roles_per_host layered_project 3 shadowing_hosts
                  = Ok (remove_shared_roles shadowing_closures))
    by (unfold roles_per_host; by rewrite shadowing_plan).
  destruct (shared_roles_subtracted layered_project 3 shadowing_hosts
              (remove_shared_roles shadowing_closures)
              {["web"; "nginx"; "common"]} Hplan eq_refl)
    as (_ & Hhost & Hdisjoint & _).
  destruct (Hhost [shared_host; ConfigHost.mk (YStr "w1") "web";
                   ConfigHost.mk (YStr "all") "web"]
              (ConfigHost.mk (YStr "d1") "db")
              [ConfigHost.mk (YStr "w1") "db"] "d1" eq_refl eq_refl)
    as (closure & Hclosure & Hlookup).
  { repeat constructor. discriminate. }
  split.
  - reflexivity.
  - apply (Hdisjoint (KStr "d1")); [|discriminate].
    right. right. left.
Defined.

(** ** get_hosts *)

Lemma for_each_prefix {A B : Type} (body : list B → A → result (list B))
    (s0 : list B) :
  (∀ s x, body (s0 ++ s) x = app s0 <$> body s x) →
  ∀ l s, for_each body l (s0 ++ s) = app s0 <$> for_each body l s.
Proof.
  intros Hbody l. induction l as [|x l IH]; intros s; simpl; [done|].
  rewrite Hbody. destruct (body s x) as [s'|e]; simpl; [apply IH | done].
Qed.

Lemma get_hosts_group_prefix (s0 s : list ConfigHost.t) (entry : string * yaml) :
  get_hosts_group (s0 ++ s) entry = app s0 <$> get_hosts_group s entry.
Proof.
  destruct entry as [group group_data]. unfold get_hosts_group.
  destruct (Py.contains "hosts" group_data) as [[|]|]; simpl; try done.
  destruct (Py.getitem group_data "hosts") as [hs|]; simpl; [|done].
  destruct (Py.iter hs) as [names|]; simpl; [|done].
  apply for_each_prefix. clear. intros s host. simpl.
  by rewrite app_assoc.
Qed.

(** With [include_shared] the list starts with the shared host and goes
    on with the hosts of the inventory. *)
Lemma get_hosts_shared_first (inventory_file : option yaml) :
  get_hosts inventory_file true
  = cons shared_host <$> get_hosts inventory_file false.
Proof.
  unfold get_hosts. destruct inventory_file as [inventory|]; [|done].
  destruct (negb (Py.truthy inventory)); [done|].
  destruct (Py.values inventory) as [tops|]; simpl; [|done].
  change [shared_host] with ([shared_host] ++ []).
  apply (for_each_prefix
           (λ hosts top_data,
              children ← Py.getitem top_data "children";
              groups ← Py.items children;
              for_each get_hosts_group groups hosts) [shared_host]).
  intros s top_data.
  destruct (Py.getitem top_data "children") as [children|]; simpl; [|done].
  destruct (Py.items children) as [groups|]; simpl; [|done].
  apply (for_each_prefix get_hosts_group [shared_host]).
  apply get_hosts_group_prefix.
Qed.


(** The inventory lists w1 under web and db and a host all under web: the
    hosts come in this order, the shared host first. *)
Example get_hosts_shadowing :
  get_hosts (Some shadowing_inventory) true = Ok shadowing_hosts.
Proof. reflexivity. Qed.


(** * Further properties *)

(** ** get_dependant_roles, whenever it returns *)

Lemma for_each_ext_Ok {A S : Type} (body1 body2 : S → A → result S)
    (l : list A) (s s' : S) :
  (∀ x acc acc', x ∈ l → body1 acc x = Ok acc' → body2 acc x = Ok acc') →
  for_each body1 l s = Ok s' →
  for_each body2 l s = Ok s'.
Proof.
  revert s. induction l as [|x l IH]; intros s Hext H; simpl in *; [done|].
  apply bind_Ok_inv in H as (s1 & H1 & H).
  rewrite (Hext x s s1); [|by left|done]. simpl.
  apply IH; [|done]. intros y acc acc' Hy. apply Hext. by right.
Qed.

Lemma dependency_entries_named (f : string → result (gset string))
    (entries : list yaml) (acc s : gset string) :
  for_each (λ roles dep,
              dep_role ← Py.getitem dep "role";
              r ← Py.path_component dep_role;
              sub ← f r;
              Ok (roles ∪ {[r]} ∪ sub)) entries acc = Ok s →
  ∃ names, map_result dependency_name entries = Ok names.
Proof.
  revert acc. induction entries as [|dep entries IH]; intros acc H; simpl in *.
  - by exists [].
  - apply bind_Ok_inv in H as (acc1 & H1 & H).
    apply bind_Ok_inv in H1 as (dep_role & E1 & H1).
    apply bind_Ok_inv in H1 as (r & E2 & _).
    destruct (IH _ H) as [names Hnames].
    assert (Hdep : dependency_name dep = Ok r).
    { unfold dependency_name. rewrite E1. simpl. by rewrite E2. }
    exists (r :: names).
    change (map_result dependency_name (dep :: entries))
      with (y ← dependency_name dep;
            ys ← map_result dependency_name entries; Ok (y :: ys)).
    rewrite Hdep. simpl. by rewrite Hnames.
Qed.

Lemma get_dependant_roles_declared (p : project) (depth : nat) (role : string)
    (roles : gset string) :
  get_dependant_roles p (S depth) role = Ok roles →
  ∃ deps, declared_dependencies p role = Ok deps.
Proof.
  unfold declared_dependencies. simpl.
  destruct (role_is_dir p role); simpl; [|by exists []].
  destruct (meta_file p role) as [doc|]; [|by exists []].
  destruct (Py.get _ "dependencies" _) as [deps'|]; simpl; [|done].
  destruct (Py.iter deps') as [entries|]; simpl; [|done].
  apply dependency_entries_named.
Qed.

Lemma for_each_union_inv (f : string → result (gset string))
    (deps : list string) (acc s' : gset string) :
  for_each (λ roles r, sub ← f r; Ok (roles ∪ {[r]} ∪ sub)) deps acc = Ok s' →
  (∀ d, d ∈ deps → ∃ s, f d = Ok s)
  ∧ (∀ x, x ∈ s' ↔ x ∈ acc ∨ ∃ d s, d ∈ deps ∧ f d = Ok s ∧ (x = d ∨ x ∈ s)).
Proof.
  revert acc. induction deps as [|d deps IH]; intros acc H; simpl in H.
  - injection H as <-. split.
    + intros d Hd. by apply elem_of_nil in Hd.
    + intros x. split; [by left|].
      intros [?|(d & s & Hd & _)]; [done|]. by apply elem_of_nil in Hd.
  - apply bind_Ok_inv in H as (acc1 & H1 & H).
    apply bind_Ok_inv in H1 as (sub & Hsub & [= <-]).
    destruct (IH _ H) as [Hall Hmem]. split.
    + intros d' Hd'. apply elem_of_cons in Hd' as [-> | Hd']; eauto.
    + intros x. rewrite Hmem, !elem_of_union, elem_of_singleton. split.
      * intros [[[? | ->] | ?] | (d' & s & Hd' & Hf & Hx)].
        -- by left.
        -- right. exists d, sub. split; [by left|]. split; [done | by left].
        -- right. exists d, sub. split; [by left|]. split; [done | by right].
        -- right. exists d', s. split; [by right | done].
      * intros [? | (d' & s & Hd' & Hf & Hx)]; [by left; left; left|].
        apply elem_of_cons in Hd' as [-> | Hd'].
        -- left. rewrite Hf in Hsub. injection Hsub as <-.
           destruct Hx as [-> | ?]; [left; by right | by right].
        -- right. eauto 6.
Qed.

Lemma get_dependant_roles_sound (p : project) (depth : nat) (role : string)
    (roles : gset string) :
  get_dependant_roles p depth role = Ok roles →
  ∀ x, x ∈ roles ↔ tc (depends_on p) role x.
Proof.
  revert role roles. induction depth as [|depth IH]; intros role roles H;
    [discriminate|].
  destruct (get_dependant_roles_declared _ _ _ _ H) as [deps Hdeps].
  rewrite (get_dependant_roles_step _ _ _ _ Hdeps) in H.
  apply for_each_union_inv in H as [Hall Hmem].
  intros x. rewrite Hmem, (depends_on_closure _ _ _ _ Hdeps). split.
  - intros [Hx | (d & s & Hd & Hs & Hx)]; [by apply not_elem_of_empty in Hx|].
    exists d. split; [done|]. destruct Hx as [-> | Hx]; [by left|].
    right. by apply (IH _ _ Hs).
  - intros (d & Hd & Hx). right. destruct (Hall d Hd) as [s Hs].
    exists d, s. split; [done|]. split; [done|].
    destruct Hx as [-> | Hx]; [by left|]. right. by apply (IH _ _ Hs).
Qed.

(** X1: whenever get_dependant_roles returns a set, at whatever recursion
    limit and without any assumption on the project, the set is exactly the
    transitive closure of the dependencies the roles declare. *)
Theorem get_dependant_roles_returns_closure (p : project) (depth : nat)
    (role : string) (roles : gset string) :
  get_dependant_roles p depth role = Ok roles →
  ∀ x, x ∈ roles ↔ tc (depends_on p) role x.
Proof. apply get_dependant_roles_sound. Qed.

Lemma get_dependant_roles_returns_closure_witness :
  tc (depends_on layered_project) "web" "common".
Proof.
  apply (get_dependant_roles_returns_closure layered_project 3 "web"
           {["nginx"; "common"]}).
  - reflexivity.
  - apply elem_of_union. right. by apply elem_of_singleton.
Defined.

Lemma get_dependant_roles_mono (p : project) (depth depth' : nat)
    (role : string) (roles : gset string) :
  get_dependant_roles p depth role = Ok roles →
  depth ≤ depth' →
  get_dependant_roles p depth' role = Ok roles.
Proof.
  revert depth' role roles.
  induction depth as [|depth IH]; intros depth' role roles H Hle;
    [discriminate|].
  destruct depth' as [|depth']; [lia|].
  destruct (get_dependant_roles_declared _ _ _ _ H) as [deps Hdeps].
  rewrite (get_dependant_roles_step _ depth _ _ Hdeps) in H.
  rewrite (get_dependant_roles_step _ depth' _ _ Hdeps).
  revert H. apply for_each_ext_Ok. intros d acc acc' _ Hd.
  apply bind_Ok_inv in Hd as (sub & Hsub & [= <-]).
  rewrite (IH depth' d sub Hsub); [done | lia].
Qed.

(** X2: the recursion limit decides only whether get_dependant_roles
    returns: a set returned at one limit is returned at every higher
    limit. *)
Theorem get_dependant_roles_limit_irrelevant (p : project)
    (depth depth' : nat) (role : string) (roles : gset string) :
  get_dependant_roles p depth role = Ok roles →
  depth ≤ depth' →
  get_dependant_roles p depth' role = Ok roles.
Proof. apply get_dependant_roles_mono. Qed.

Lemma get_dependant_roles_limit_irrelevant_witness :
  get_dependant_roles layered_project 1000 "web" = Ok {["nginx"; "common"]}.
Proof.
  apply (get_dependant_roles_limit_irrelevant layered_project 3 1000 "web").
  - reflexivity.
  - lia.
Defined.

(** ** extract_role_names on any sequence and on a string *)

Lemma extract_role_item_Ok (names names' : gset pykey) (item : yaml) :
  extract_role_item names item = Ok names' →
  ∀ k, k ∈ names' ↔ k ∈ names ∨ item_names item k.
Proof.
  destruct item as [| | |s|l|d]; simpl;
    try (intros [= <-] k; split; [by left | by intros [?|[]]]).
  - intros [= <-] k. rewrite elem_of_union, elem_of_singleton. done.
  - destruct (Py.dict_lookup "role" d) as [r|]; simpl.
    + intros H. apply bind_Ok_inv in H as (k' & Hk' & [= <-]). intros k.
      rewrite elem_of_union, elem_of_singleton. split.
      * intros [? | ->]; [by left|]. right. eauto.
      * intros [? | (r' & [= <-] & Hr')]; [by left|]. right. congruence.
    + intros [= <-] k. split; [by left|].
      intros [? | (r & ? & _)]; [done | discriminate].
Qed.

Lemma extract_role_items_Ok (entries : list yaml) (acc names : gset pykey) :
  for_each extract_role_item entries acc = Ok names →
  ∀ k, k ∈ names ↔ k ∈ acc ∨ ∃ item, item ∈ entries ∧ item_names item k.
Proof.
  revert acc. induction entries as [|item entries IH]; intros acc H k;
    simpl in H.
  - injection H as <-. split; [by left|].
    intros [? | (item & Hi & _)]; [done|]. by apply elem_of_nil in Hi.
  - apply bind_Ok_inv in H as (acc1 & H1 & H).
    rewrite (IH _ H), (extract_role_item_Ok _ _ _ H1). split.
    + intros [[? | ?] | (item' & Hi & Hk)].
      * by left.
      * right. exists item. split; [by left | done].
      * right. exists item'. split; [by right | done].
    + intros [? | (item' & Hi & Hk)]; [by left; left|].
      apply elem_of_cons in Hi as [-> | Hi]; [left; by right|].
      right. eauto.
Qed.

(** X3: for a sequence of any items, mixed or not, the set
    extract_role_names returns holds exactly the strings of the sequence
    and the role values of its mappings; every other item and every other
    key of a mapping leaves no trace. *)
Theorem extract_role_names_sequence (entries : list yaml) (names : gset pykey) :
  extract_role_names (YList entries) = Ok names →
  ∀ k, k ∈ names ↔ ∃ item, item ∈ entries ∧ item_names item k.
Proof.
  intros H k. rewrite (extract_role_items_Ok _ _ _ H). split.
  - intros [Hk | ?]; [by apply not_elem_of_empty in Hk | done].
  - by right.
Qed.

Lemma extract_role_names_sequence_witness :
  KStr "db" ∈ ({[KStr "db"; KStr "web"]} : gset pykey)
  ↔ ∃ item,
      item ∈ [YInt 3; YDict [("role", YStr "db"); ("tags", YStr "t")];
              YStr "web"; YList [YStr "nested"]]
      ∧ item_names item (KStr "db").
Proof.
  apply (extract_role_names_sequence
           [YInt 3; YDict [("role", YStr "db"); ("tags", YStr "t")];
            YStr "web"; YList [YStr "nested"]]).
  reflexivity.
Defined.

Lemma extract_role_items_fail (entries : list yaml) (acc : gset pykey) :
  (existsb unhashable_role entries = true
   ∧ for_each extract_role_item entries acc = Raise TypeError)
  ∨ (existsb unhashable_role entries = false
     ∧ ∃ names, for_each extract_role_item entries acc = Ok names).
Proof.
  revert acc. induction entries as [|item entries IH]; intros acc; simpl.
  - right. eauto.
  - destruct item as [| | |s|l|d]; simpl; try apply IH.
    destruct (Py.dict_lookup "role" d) as [[| | | | |]|]; simpl;
      try apply IH; by left.
Qed.

(** X4: on a sequence extract_role_names fails only with TypeError, and it
    does so exactly when some mapping of the sequence has a role that is
    itself a sequence or a mapping (which a set cannot hold); otherwise it
    returns a set. *)
Theorem extract_role_names_sequence_failure (entries : list yaml) :
  (existsb unhashable_role entries = true
   ∧ extract_role_names (YList entries) = Raise TypeError)
  ∨ (existsb unhashable_role entries = false
     ∧ ∃ names, extract_role_names (YList entries) = Ok names).
Proof. apply extract_role_items_fail. Qed.

Lemma chars_length (s : string) (c : string) :
  c ∈ Py.chars s → String.length c = 1.
Proof.
  unfold Py.chars. intros H.
  apply list_elem_of_fmap in H as (a & -> & _). done.
Qed.

(** X5: a roles value that is a plain string is not taken as one role
    name: the set extract_role_names returns holds the characters of the
    string, one name per character, so a name of two or more characters is
    never in the set computed from it. *)
Theorem extract_role_names_string (s : string) :
  ∃ names,
    extract_role_names (YStr s) = Ok names
    ∧ (∀ k, k ∈ names ↔ ∃ c, c ∈ Py.chars s ∧ k = KStr c)
    ∧ (∀ k, k ∈ names → ∃ a, k = KStr (String a EmptyString))
    ∧ (2 ≤ String.length s → KStr s ∉ names).
Proof.
  eexists. split; [reflexivity|].
  assert (Hmem : ∀ k, k ∈ (list_to_set (map KStr (Py.chars s)) : gset pykey)
                      ↔ ∃ c, c ∈ Py.chars s ∧ k = KStr c).
  { intros k. rewrite elem_of_list_to_set.
    change (map KStr (Py.chars s)) with (KStr <$> Py.chars s).
    rewrite list_elem_of_fmap. split; intros (c & ? & ?); eauto. }
  split; [exact Hmem|]. split.
  - intros k Hk. apply Hmem in Hk as (c & Hc & ->).
    unfold Py.chars in Hc. apply list_elem_of_fmap in Hc as (a & -> & _).
    eauto.
  - intros Hlen Hk. apply Hmem in Hk as (c & Hc & [= <-]).
    apply chars_length in Hc. lia.
Qed.

Lemma extract_role_names_string_witness :
  KStr "ssh" ∉ (list_to_set (map KStr (Py.chars "ssh")) : gset pykey).
Proof.
  destruct (extract_role_names_string "ssh") as (names & H & _ & _ & Hnot).
  injection H as <-. apply Hnot. simpl. lia.
Defined.

(** ** Which tasks count for a group *)

Lemma prefix_spec (g h : string) :
  String.prefix g h = true ↔ ∃ post, h = g +:+ post.
Proof.
  revert g. induction h as [|b h IH]; intros [|a g]; simpl.
  - split; [|done]. intros _. by exists EmptyString.
  - split; [done|]. intros [post [=]].
  - split; [|done]. intros _. by exists (String b h).
  - destruct (ascii_dec a b) as [->|Hne].
    + rewrite IH. split.
      * intros [post ->]. by exists post.
      * intros [post [= ->]]. by exists post.
    + split; [done|]. intros [post [= ? _]]. done.
Qed.

Lemma str_contains_spec (g h : string) :
  Py.str_contains g h = true ↔ ∃ pre post, h = pre +:+ g +:+ post.
Proof.
  induction h as [|b h IH].
  - change (Py.str_contains g EmptyString)
      with (String.prefix g EmptyString || false).
    rewrite orb_false_r, prefix_spec. split.
    + intros [post E]. by exists EmptyString, post.
    + intros (pre & post & E). destruct pre; [by exists post | discriminate].
  - change (Py.str_contains g (String b h))
      with (String.prefix g (String b h) || Py.str_contains g h).
    rewrite orb_true_iff, prefix_spec, IH. split.
    + intros [[post E] | (pre & post & ->)].
      * by exists EmptyString, post.
      * by exists (String b pre), post.
    + intros (pre & post & E). destruct pre as [|c pre].
      * left. by exists post.
      * right. injection E as -> ->. by exists pre, post.
Qed.

Lemma getitem_contains (task : yaml) (k : string) (v : yaml) :
  Py.getitem task k = Ok v → Py.contains k task = Ok true.
Proof.
  destruct task as [| | | | |d]; try discriminate. simpl.
  destruct (Py.dict_lookup k d); [|discriminate]. intros _.
  by rewrite bool_decide_eq_true_2.
Qed.

Lemma task_applies_shared (g : string) (task hosts tags : yaml) (b : bool) :
  Py.getitem task "hosts" = Ok hosts →
  Py.contains g hosts = Ok b →
  Py.getitem task "tags" = Ok tags →
  Py.contains SHARED_TAG tags = Ok true →
  task_applies g task = Ok true.
Proof.
  intros Hhosts Hin Htags Hshared. unfold task_applies.
  rewrite Hhosts. simpl. rewrite Hin. simpl. destruct b; [done|].
  destruct (Py.is_str "all" hosts); [done|].
  rewrite (getitem_contains _ _ _ Htags). simpl. by rewrite Htags.
Qed.

Lemma task_applies_all (g : string) (task : yaml) (h : string) :
  Py.getitem task "hosts" = Ok (YStr h) →
  h = "all" →
  task_applies g task = Ok true.
Proof.
  intros Hhosts Hall. unfold task_applies. rewrite Hhosts. simpl.
  destruct (Py.str_contains g h); simpl; [done|]. by rewrite Hall.
Qed.

(** X6: for a task without tags the hosts selector decides alone. A
    selector that is a string counts for a group when the group name occurs
    anywhere inside it (so web also matches webservers) or when it is the
    string all; a selector that is a sequence counts when the group name is
    one of its items. *)
Theorem task_applies_by_hosts (g : string) (rest : list (string * yaml)) :
  Py.dict_lookup "tags" rest = None →
  (∀ h, task_applies g (YDict (("hosts", YStr h) :: rest))
        = Ok (Py.str_contains g h || bool_decide (h = "all")))
  ∧ (∀ h, Py.str_contains g h = true ↔ ∃ pre post, h = pre +:+ g +:+ post)
  ∧ (∀ l, task_applies g (YDict (("hosts", YList l) :: rest))
          = Ok (existsb (Py.is_str g) l)).
Proof.
  intros Htags. split; [|split].
  - intros h. unfold task_applies. simpl.
    destruct (Py.str_contains g h); simpl; [done|].
    destruct (bool_decide (h = "all")); simpl; [done|]. by rewrite Htags.
  - intros h. apply str_contains_spec.
  - intros l. unfold task_applies. simpl.
    destruct (existsb (Py.is_str g) l); simpl; [done|]. by rewrite Htags.
Qed.

Lemma task_applies_by_hosts_witness :
  task_applies "web" (YDict [("hosts", YStr "webservers");
                             ("roles", YList [YStr "nginx"])]) = Ok true.
Proof.
  exact (proj1 (task_applies_by_hosts "web" [("roles", YList [YStr "nginx"])]
                  eq_refl) "webservers").
Defined.

(** X7: two kinds of task count for every group, whatever its name: a task
    whose hosts selector is the string all, and a task with a string
    selector whose tags sequence holds the shared tag. *)
Theorem task_applies_to_every_group (g : string) (rest : list (string * yaml)) :
  task_applies g (YDict (("hosts", YStr "all") :: rest)) = Ok true
  ∧ (∀ h tags,
       Py.dict_lookup "tags" rest = Some (YList tags) →
       existsb (Py.is_str SHARED_TAG) tags = true →
       task_applies g (YDict (("hosts", YStr h) :: rest)) = Ok true).
Proof.
  split.
  - by apply (task_applies_all g _ "all").
  - intros h tags Htags Hshared.
    apply (task_applies_shared g _ (YStr h) (YList tags) (Py.str_contains g h)).
    + reflexivity.
    + reflexivity.
    + simpl. by rewrite Htags.
    + simpl. by rewrite Hshared.
Qed.

Lemma task_applies_to_every_group_witness :
  task_applies "db" (YDict [("hosts", YStr "none");
                            ("tags", YList [YStr "shared"]);
                            ("roles", YList [YStr "common"])]) = Ok true.
Proof.
  exact (proj2 (task_applies_to_every_group "db"
                  [("tags", YList [YStr "shared"]);
                   ("roles", YList [YStr "common"])])
           "none" [YStr "shared"] eq_refl eq_refl).
Defined.

(** ** accumulate_roles *)

Lemma for_each_raise {A S : Type} (body : S → A → result S)
    (pre post : list A) (x : A) (s s' : S) (e : exn) :
  for_each body pre s = Ok s' →
  body s' x = Raise e →
  for_each body (pre ++ x :: post) s = Raise e.
Proof.
  intros Hpre Hx. rewrite for_each_app, Hpre. simpl. by rewrite Hx.
Qed.

Lemma accumulate_task_Ok (g : string) (m m' : gset pykey) (task : yaml) :
  accumulate_task g m task = Ok m' →
  ∀ k, k ∈ m' ↔ k ∈ m ∨ ∃ roles_data names,
                         task_applies g task = Ok true
                         ∧ Py.getitem task "roles" = Ok roles_data
                         ∧ extract_role_names roles_data = Ok names
                         ∧ k ∈ names.
Proof.
  unfold accumulate_task. intros H.
  apply bind_Ok_inv in H as (applies & Happ & H). destruct applies.
  - apply bind_Ok_inv in H as (has_roles & Hhas & H). destruct has_roles.
    + apply bind_Ok_inv in H as (roles_data & Hget & H).
      apply bind_Ok_inv in H as (names & Hnames & [= <-]). intros k.
      rewrite elem_of_union. split.
      * intros [? | ?]; [by left|]. right. eauto 6.
      * intros [? | (rd & names' & _ & Hget' & Hnames' & Hk)]; [by left|].
        right. congruence.
    + injection H as <-. intros k. split; [by left|].
      intros [? | (rd & names & _ & Hget & _)]; [done|].
      apply getitem_contains in Hget. congruence.
  - injection H as <-. intros k. split; [by left|].
    intros [? | (rd & names & Happ' & _)]; [done | congruence].
Qed.

Lemma accumulate_tasks_Ok (g : string) (tasks : list yaml) (m m' : gset pykey) :
  for_each (accumulate_task g) tasks m = Ok m' →
  ∀ k, k ∈ m' ↔ k ∈ m ∨ ∃ task roles_data names,
                         task ∈ tasks
                         ∧ task_applies g task = Ok true
                         ∧ Py.getitem task "roles" = Ok roles_data
                         ∧ extract_role_names roles_data = Ok names
                         ∧ k ∈ names.
Proof.
  revert m. induction tasks as [|task tasks IH]; intros m H k; simpl in H.
  - injection H as <-. split; [by left|].
    intros [? | (task & ? & ? & Ht & _)]; [done|]. by apply elem_of_nil in Ht.
  - apply bind_Ok_inv in H as (m1 & H1 & H).
    rewrite (IH _ H), (accumulate_task_Ok _ _ _ _ H1). split.
    + intros [[? | (rd & names & ?)] | (task' & rd & names & Ht & ?)].
      * by left.
      * right. exists task, rd, names. split; [by left | done].
      * right. exists task', rd, names. split; [by right | done].
    + intros [? | (task' & rd & names & Ht & Hrest)]; [by left; left|].
      apply elem_of_cons in Ht as [-> | Ht].
      * left. right. eauto.
      * right. eauto 8.
Qed.

Lemma accumulate_dependencies_Ok (p : project) (depth : nat)
    (l : list pykey) (acc roles : gset string) :
  for_each (λ accumulated_roles role,
              r ← match role with
                  | KStr s => Ok s
                  | _ => Raise TypeError
                  end;
              sub ← get_dependant_roles p depth r;
              Ok (accumulated_roles ∪ {[r]} ∪ sub)) l acc = Ok roles →
  (∀ k, k ∈ l → ∃ r, k = KStr r)
  ∧ (∀ x, x ∈ roles ↔
          x ∈ acc ∨ ∃ r, KStr r ∈ l ∧ (x = r ∨ tc (depends_on p) r x)).
Proof.
  revert acc. induction l as [|k l IH]; intros acc H; simpl in H.
  - injection H as <-. split.
    + intros k Hk. by apply elem_of_nil in Hk.
    + intros x. split; [by left|].
      intros [? | (r & Hr & _)]; [done|]. by apply elem_of_nil in Hr.
  - apply bind_Ok_inv in H as (acc1 & H1 & H).
    apply bind_Ok_inv in H1 as (r & Hr & H1).
    apply bind_Ok_inv in H1 as (sub & Hsub & [= <-]).
    destruct k as [|z|s]; try discriminate. injection Hr as ->.
    destruct (IH _ H) as [Hstr Hmem]. split.
    + intros k Hk. apply elem_of_cons in Hk as [-> | Hk]; eauto.
    + intros x. rewrite Hmem, !elem_of_union, elem_of_singleton.
      rewrite (get_dependant_roles_sound _ _ _ _ Hsub). split.
      * intros [[[? | ->] | ?] | (r' & Hr' & Hx)].
        -- by left.
        -- right. exists r. split; [by left | by left].
        -- right. exists r. split; [by left | by right].
        -- right. exists r'. split; [by right | done].
      * intros [? | (r' & Hr' & Hx)]; [by left; left; left|].
        apply elem_of_cons in Hr' as [[= ->] | Hr'].
        -- left. destruct Hx as [-> | ?]; [left; by right | by right].
        -- right. eauto.
Qed.

Lemma accumulate_roles_Ok (p : project) (depth : nat) (g : string)
    (roles : gset string) :
  accumulate_roles p depth g = Ok roles →
  ∃ tasks main_roles,
    Py.iter (main_file p) = Ok tasks
    ∧ for_each (accumulate_task g) tasks ∅ = Ok main_roles
    ∧ (∀ k, k ∈ main_roles → ∃ r, k = KStr r)
    ∧ (∀ x, x ∈ roles ↔
            KStr x ∈ main_roles
            ∨ ∃ r, KStr r ∈ main_roles ∧ tc (depends_on p) r x).
Proof.
  unfold accumulate_roles. intros H.
  apply bind_Ok_inv in H as (tasks & Htasks & H).
  apply bind_Ok_inv in H as (main_roles & Hmain & H).
  apply accumulate_dependencies_Ok in H as [Hstr Hmem].
  exists tasks, main_roles. split; [done|]. split; [done|]. split.
  - intros k Hk. apply Hstr. by apply elem_of_elements.
  - intros x. rewrite Hmem. split.
    + intros [Hx | (r & Hr & Hx)]; [by apply not_elem_of_empty in Hx|].
      apply elem_of_elements in Hr. destruct Hx as [-> | Hx]; eauto.
    + intros [Hx | (r & Hr & Hx)]; right.
      * exists x. split; [by apply elem_of_elements | by left].
      * exists r. split; [by apply elem_of_elements | by right].
Qed.

(** X8: the set accumulate_roles returns for a group: a role is in it
    exactly when a task that counts for the group lists it, or when it is
    reachable through declared dependencies from a role so listed; and the
    roles listed are those extract_role_names reads from the roles of the
    tasks that count for the group. *)
Theorem accumulate_roles_closure (p : project) (depth : nat) (g : string)
    (roles : gset string) :
  accumulate_roles p depth g = Ok roles →
  ∃ (tasks : list yaml) (main_roles : gset pykey),
    Py.iter (main_file p) = Ok tasks
    ∧ (∀ k, k ∈ main_roles ↔
            ∃ task roles_data names,
              task ∈ tasks
              ∧ task_applies g task = Ok true
              ∧ Py.getitem task "roles" = Ok roles_data
              ∧ extract_role_names roles_data = Ok names
              ∧ k ∈ names)
    ∧ (∀ x, x ∈ roles ↔
            KStr x ∈ main_roles
            ∨ ∃ r, KStr r ∈ main_roles ∧ tc (depends_on p) r x).
Proof.
  intros H.
  destruct (accumulate_roles_Ok _ _ _ _ H)
    as (tasks & main_roles & Htasks & Hmain & _ & Hmem).
  exists tasks, main_roles. split; [done|]. split; [|done].
  intros k. rewrite (accumulate_tasks_Ok _ _ _ _ Hmain). split.
  - intros [Hk | ?]; [by apply not_elem_of_empty in Hk | done].
  - by right.
Qed.

Lemma accumulate_roles_closure_witness :
  ∃ (tasks : list yaml) (main_roles : gset pykey),
    Py.iter (main_file layered_project) = Ok tasks
    ∧ (∀ k, k ∈ main_roles ↔
            ∃ task roles_data names,
              task ∈ tasks
              ∧ task_applies "web" task = Ok true
              ∧ Py.getitem task "roles" = Ok roles_data
              ∧ extract_role_names roles_data = Ok names
              ∧ k ∈ names)
    ∧ (∀ x, x ∈ ({["web"; "nginx"; "common"]} : gset string) ↔
            KStr x ∈ main_roles
            ∨ ∃ r, KStr r ∈ main_roles
                   ∧ tc (depends_on layered_project) r x).
Proof.
  apply (accumulate_roles_closure layered_project 3 "web"). reflexivity.
Defined.

(** X9: an entry of the playbook that is a mapping without hosts key (an
    imported playbook, say) stops accumulate_roles with KeyError for every
    group, once the entries before it have been read without error. *)
Theorem accumulate_roles_task_without_hosts (p : project) (depth : nat)
    (g : string) (pre post : list yaml) (d : list (string * yaml))
    (m : gset pykey) :
  main_file p = YList (pre ++ YDict d :: post) →
  Py.dict_lookup "hosts" d = None →
  for_each (accumulate_task g) pre ∅ = Ok m →
  accumulate_roles p depth g = Raise KeyError.
Proof.
  intros Hmain Hhosts Hpre. unfold accumulate_roles. rewrite Hmain. simpl.
  rewrite (for_each_raise _ pre post (YDict d) ∅ m KeyError); [done..|].
  unfold accumulate_task, task_applies. simpl. by rewrite Hhosts.
Qed.

Lemma accumulate_roles_task_without_hosts_witness :
  accumulate_roles importing_project 10 "web" = Raise KeyError.
Proof.
  apply (accumulate_roles_task_without_hosts importing_project 10 "web"
           [YDict [("hosts", YStr "web"); ("roles", YList [YStr "nginx"])]]
           [] [("import_playbook", YStr "db.yml")] {[KStr "nginx"]});
    reflexivity.
Defined.

(** ** The dictionary roles_per_host *)

Lemma dict_set_keys {K V : Type} `{EqDecision K} (k k' : K) (v : V)
    (d : list (K * V)) :
  k' ∈ (Py.dict_set k v d).*1 ↔ k' = k ∨ k' ∈ d.*1.
Proof.
  induction d as [|[k0 v0] d IH]; simpl.
  - rewrite list_elem_of_singleton. split; [by left|].
    intros [? | Hk]; [done|]. by apply elem_of_nil in Hk.
  - case_bool_decide as E; simpl; rewrite !elem_of_cons.
    + subst k0. tauto.
    + rewrite IH. tauto.
Qed.

Lemma dict_set_NoDup {K V : Type} `{EqDecision K} (k : K) (v : V)
    (d : list (K * V)) :
  NoDup d.*1 → NoDup (Py.dict_set k v d).*1.
Proof.
  induction d as [|[k0 v0] d IH]; simpl; intros Hd.
  - apply NoDup_singleton.
  - case_bool_decide as E; simpl; [done|].
    apply NoDup_cons in Hd as [Hk0 Hd]. apply NoDup_cons. split; [|by apply IH].
    rewrite dict_set_keys. intros [-> | ?]; done.
Qed.

Lemma dict_set_entries {K V : Type} `{EqDecision K} (k k' : K) (v v' : V)
    (d : list (K * V)) :
  (k', v') ∈ Py.dict_set k v d → (k' = k ∧ v' = v) ∨ (k', v') ∈ d.
Proof.
  induction d as [|[k0 v0] d IH]; simpl.
  - intros Hin. apply list_elem_of_singleton in Hin as [= -> ->]. by left.
  - case_bool_decide as E; simpl; rewrite !elem_of_cons.
    + subst k0. intros [[= -> ->] | ?]; [by left | by right; right].
    + intros [? | Hin]; [by right; left|].
      destruct (IH Hin) as [? | ?]; [by left | by right; right].
Qed.

Lemma dict_lookup_None {K V : Type} `{EqDecision K} (k : K) (d : list (K * V)) :
  k ∉ d.*1 → Py.dict_lookup k d = None.
Proof.
  induction d as [|[k0 v0] d IH]; simpl; [done|].
  rewrite not_elem_of_cons. intros [Hne Hk].
  rewrite bool_decide_eq_false_2; [by apply IH | done].
Qed.

Lemma dict_lookup_entry {K V : Type} `{EqDecision K} (k : K) (v : V)
    (d : list (K * V)) :
  Py.dict_lookup k d = Some v → (k, v) ∈ d.
Proof.
  induction d as [|[k0 v0] d IH]; simpl; [done|].
  case_bool_decide as E.
  - intros [= ->]. subst k0. by left.
  - intros Hl. right. by apply IH.
Qed.

Lemma accumulate_hosts_entries (p : project) (depth : nat)
    (hosts : list ConfigHost.t) (d d' : list (pykey * gset string)) :
  for_each (λ roles_per_host host,
              roles ← accumulate_roles p depth (ConfigHost.group_name host);
              name ← Py.hash_key (ConfigHost.name host);
              Ok (Py.dict_set name roles roles_per_host)) hosts d = Ok d' →
  (NoDup d.*1 → NoDup d'.*1)
  ∧ (∀ k, k ∈ d'.*1 ↔
          k ∈ d.*1 ∨ ∃ h, h ∈ hosts ∧ Py.hash_key (ConfigHost.name h) = Ok k)
  ∧ (∀ k roles, (k, roles) ∈ d' →
       (k, roles) ∈ d
       ∨ ∃ h, h ∈ hosts
              ∧ accumulate_roles p depth (ConfigHost.group_name h) = Ok roles).
Proof.
  revert d. induction hosts as [|host hosts IH]; intros d H; simpl in H.
  - injection H as <-. split; [done|]. split.
    + intros k. split; [by left|].
      intros [? | (h & Hh & _)]; [done|]. by apply elem_of_nil in Hh.
    + intros k roles ?. by left.
  - apply bind_Ok_inv in H as (d1 & H1 & H).
    apply bind_Ok_inv in H1 as (roles & Hroles & H1).
    apply bind_Ok_inv in H1 as (name & Hname & [= <-]).
    destruct (IH _ H) as (Hnd & Hkeys & Hent). split; [|split].
    + intros Hd. by apply Hnd, dict_set_NoDup.
    + intros k. rewrite Hkeys, dict_set_keys. split.
      * intros [[-> | ?] | (h & Hh & Hk)].
        -- right. exists host. split; [by left | done].
        -- by left.
        -- right. exists h. split; [by right | done].
      * intros [? | (h & Hh & Hk)]; [by left; right|].
        apply elem_of_cons in Hh as [-> | Hh].
        -- left. left. congruence.
        -- right. eauto.
    + intros k roles' Hin. destruct (Hent _ _ Hin) as [Hin' | (h & Hh & Hr)].
      * apply dict_set_entries in Hin' as [[-> ->] | ?]; [|by left].
        right. exists host. split; [by left | done].
      * right. exists h. split; [by right | done].
Qed.

Lemma remove_shared_roles_keys (d : list (pykey * gset string)) :
  (remove_shared_roles d).*1 = d.*1.
Proof.
  unfold remove_shared_roles.
  destruct (Py.dict_lookup (KStr SHARED_HOST_NAME) d) as [all_roles|]; [|done].
  induction d as [|[k roles] d IH]; simpl; [done|].
  case_bool_decide; simpl; f_equal; apply IH.
Qed.

Lemma roles_per_host_keys_aux (p : project) (depth : nat)
    (hosts : list ConfigHost.t) (plan : list (pykey * gset string)) :
  roles_per_host p depth hosts = Ok plan →
  NoDup plan.*1
  ∧ (∀ k, k ∈ plan.*1 ↔
          ∃ h, h ∈ hosts ∧ Py.hash_key (ConfigHost.name h) = Ok k).
Proof.
  unfold roles_per_host. intros H.
  destruct (accumulate_hosts p depth hosts) as [closures|] eqn:Hcl;
    [|discriminate].
  injection H as <-. rewrite remove_shared_roles_keys.
  destruct (accumulate_hosts_entries _ _ _ _ _ Hcl) as (Hnd & Hkeys & _).
  split; [apply Hnd, NoDup_nil_2|].
  intros k. rewrite Hkeys. split; [|by right].
  intros [Hk | ?]; [by apply elem_of_nil in Hk | done].
Qed.

(** X10: roles_per_host holds one entry per distinct host name: its keys
    are without repetition and are exactly the names of the hosts given
    to generate, however many groups list the same host. *)
Theorem roles_per_host_keys (p : project) (depth : nat)
    (hosts : list ConfigHost.t) (plan : list (pykey * gset string)) :
  roles_per_host p depth hosts = Ok plan →
  NoDup plan.*1
  ∧ (∀ k, k ∈ plan.*1 ↔
          ∃ h, h ∈ hosts ∧ Py.hash_key (ConfigHost.name h) = Ok k).
Proof. apply roles_per_host_keys_aux. Qed.

Lemma roles_per_host_keys_witness :
  NoDup (remove_shared_roles shadowing_closures).*1.
Proof.
  apply (roles_per_host_keys layered_project 3 shadowing_hosts).
  unfold roles_per_host. by rewrite shadowing_plan.
Defined.

(** X11: when no host is named all (no shared host asked for and none in
    the inventory) generate subtracts nothing: the plan is the dictionary
    of the sets accumulate_roles computed, as it is. *)
Theorem roles_per_host_without_shared (p : project) (depth : nat)
    (hosts : list ConfigHost.t) :
  Forall (λ h, ConfigHost.name h ≠ YStr SHARED_HOST_NAME) hosts →
  roles_per_host p depth hosts = accumulate_hosts p depth hosts.
Proof.
  intros Hall. unfold roles_per_host.
  destruct (accumulate_hosts p depth hosts) as [closures|] eqn:Hcl; [|done].
  simpl. f_equal. unfold remove_shared_roles.
  rewrite dict_lookup_None; [done|].
  destruct (accumulate_hosts_entries _ _ _ _ _ Hcl) as (_ & Hkeys & _).
  rewrite Hkeys. intros [Hk | (h & Hh & Hk)]; [by apply elem_of_nil in Hk|].
  apply hash_key_str in Hk. rewrite Forall_forall in Hall. by apply (Hall h).
Qed.

Lemma roles_per_host_without_shared_witness :
  roles_per_host layered_project 3
    [ConfigHost.mk (YStr "w1") "web"; ConfigHost.mk (YStr "d1") "db"]
  = accumulate_hosts layered_project 3
      [ConfigHost.mk (YStr "w1") "web"; ConfigHost.mk (YStr "d1") "db"].
Proof.
  apply roles_per_host_without_shared. repeat constructor; discriminate.
Defined.

(** X12: the subtraction of the shared roles is idempotent: applied to its
    own result it changes nothing. *)
Theorem remove_shared_roles_idempotent (d : list (pykey * gset string)) :
  remove_shared_roles (remove_shared_roles d) = remove_shared_roles d.
Proof.
  destruct (Py.dict_lookup (KStr SHARED_HOST_NAME) d) as [shared|] eqn:E.
  - assert (E' : Py.dict_lookup (KStr SHARED_HOST_NAME) (remove_shared_roles d)
                 = Some shared).
    { by rewrite (remove_shared_roles_lookup _ _ _ E), E. }
    unfold remove_shared_roles at 1. rewrite E'.
    unfold remove_shared_roles. rewrite E. rewrite map_map.
    apply map_ext. intros [k roles]. simpl.
    repeat (case_bool_decide; simpl); try done.
    by rewrite difference_twice_L.
  - unfold remove_shared_roles. by rewrite E, E.
Qed.

Lemma accumulate_roles_lists (p : project) (depth : nat) (g : string)
    (roles : gset string) (tasks : list yaml) (task roles_data : yaml)
    (names : gset pykey) (r : string) :
  accumulate_roles p depth g = Ok roles →
  main_file p = YList tasks →
  task ∈ tasks →
  task_applies g task = Ok true →
  Py.getitem task "roles" = Ok roles_data →
  extract_role_names roles_data = Ok names →
  KStr r ∈ names →
  r ∈ roles.
Proof.
  intros H Hmain Htask Happ Hget Hnames Hr.
  destruct (accumulate_roles_Ok _ _ _ _ H)
    as (tasks' & main_roles & Htasks & Hmainr & _ & Hmem).
  rewrite Hmain in Htasks. injection Htasks as <-.
  apply Hmem. left. apply (accumulate_tasks_Ok _ _ _ _ Hmainr). right.
  exists task, roles_data, names. done.
Qed.

(** X13: a role listed by a task that counts for every group (a task on
    all hosts, or one tagged shared) ends in the shared host's set only:
    when the shared host is processed, that role is in its final set and in
    the final set of no other host. *)
Theorem shared_task_roles_leave_other_hosts (p : project) (depth : nat)
    (hosts : list ConfigHost.t) (plan : list (pykey * gset string))
    (shared : gset string) (tasks : list yaml) (task roles_data : yaml)
    (names : gset pykey) (r : string) :
  roles_per_host p depth hosts = Ok plan →
  Py.dict_lookup (KStr SHARED_HOST_NAME) plan = Some shared →
  main_file p = YList tasks →
  task ∈ tasks →
  (∀ g, task_applies g task = Ok true) →
  Py.getitem task "roles" = Ok roles_data →
  extract_role_names roles_data = Ok names →
  KStr r ∈ names →
  r ∈ shared
  ∧ ∀ name roles,
      (name, roles) ∈ plan → name ≠ KStr SHARED_HOST_NAME → r ∉ roles.
Proof.
  unfold roles_per_host.
  intros Hplan Hshared Hmain Htask Happ Hget Hnames Hr.
  destruct (accumulate_hosts p depth hosts) as [closures|] eqn:Hcl;
    [|discriminate].
  injection Hplan as <-.
  assert (Hsh : Py.dict_lookup (KStr SHARED_HOST_NAME) closures = Some shared).
  { destruct (Py.dict_lookup (KStr SHARED_HOST_NAME) closures)
      as [all_roles|] eqn:E.
    - by rewrite (remove_shared_roles_lookup _ _ _ E), E in Hshared.
    - unfold remove_shared_roles in Hshared. rewrite E in Hshared. congruence. }
  assert (Hin : r ∈ shared).
  { destruct (accumulate_hosts_entries _ _ _ _ _ Hcl) as (_ & _ & Hent).
    destruct (Hent _ _ (dict_lookup_entry _ _ _ Hsh)) as [Hnil | (h & _ & Hh)].
    - by apply elem_of_nil in Hnil.
    - by apply (accumulate_roles_lists _ _ _ _ _ _ _ _ _ Hh Hmain Htask
                  (Happ _) Hget Hnames). }
  split; [done|]. intros name roles Hentry Hname Hr'.
  pose proof (remove_shared_roles_disjoint _ _ _ _ Hsh Hentry Hname) as Hdis.
  by apply (Hdis r).
Qed.

Lemma shared_task_roles_leave_other_hosts_witness :
  "common" ∈ ({["web"; "nginx"; "common"]} : gset string)
  ∧ ∀ name roles,
      (name, roles) ∈ remove_shared_roles shadowing_closures →
      name ≠ KStr SHARED_HOST_NAME → "common" ∉ roles.
Proof.
  apply (shared_task_roles_leave_other_hosts layered_project 3 shadowing_hosts
           (remove_shared_roles shadowing_closures) _
           [YDict [("hosts", YStr "web"); ("roles", YList [YStr "web"])];
            YDict [("hosts", YStr "db"); ("roles", YList [YStr "postgres"])];
            YDict [("hosts", YStr "none"); ("tags", YList [YStr "shared"]);
                   ("roles", YList [YStr "common"])]]
           (YDict [("hosts", YStr "none"); ("tags", YList [YStr "shared"]);
                   ("roles", YList [YStr "common"])])
           (YList [YStr "common"]) {[KStr "common"]}).
  - unfold roles_per_host. by rewrite shadowing_plan.
  - reflexivity.
  - reflexivity.
  - right. right. left.
  - intros g.
    by apply (task_applies_shared g _ (YStr "none") (YList [YStr "shared"])
                (Py.str_contains g "none")).
  - reflexivity.
  - reflexivity.
  - by apply elem_of_singleton.
Defined.

Lemma accumulate_hosts_hashed (p : project) (depth : nat)
    (hosts : list ConfigHost.t) (h : ConfigHost.t) :
  (∃ closures, accumulate_hosts p depth hosts = Ok closures) →
  h ∈ hosts →
  ∃ k, Py.hash_key (ConfigHost.name h) = Ok k.
Proof.
  unfold accumulate_hosts. generalize (@nil (pykey * gset string)).
  induction hosts as [|host hosts IH]; intros d [closures H] Hh.
  - by apply elem_of_nil in Hh.
  - simpl in H. apply bind_Ok_inv in H as (d1 & H1 & H).
    apply bind_Ok_inv in H1 as (roles & _ & H1).
    apply bind_Ok_inv in H1 as (k & Hk & _).
    apply elem_of_cons in Hh as [-> | Hh]; [eauto|].
    apply (IH d1); eauto.
Qed.

(** ** The files generate writes *)

Lemma generate_example_config_file (p : project) (name : pykey)
    (roles : gset string) (secrets : bool) (f : written_file) :
  generate_example_config p name roles secrets = Ok f →
  ∃ h, name = KStr h
       ∧ file_host f = h
       ∧ file_name f
         = "." +:+ (if secrets then h +:+ SECRET_FILE_SUFFIX else h)
               +:+ ".yml.example".
Proof.
  destruct name as [|z|h]; try discriminate. simpl. intros H.
  apply bind_Ok_inv in H as (lines & _ & [= <-]). by exists h.
Qed.

Lemma write_examples_Ok (p : project) (plan : list (pykey * gset string))
    (files : list written_file) (z : Z) :
  write_examples p plan = (files, Ok z) →
  z = 0%Z
  ∧ map (λ f, (KStr (file_host f), file_name f)) files
    = flat_map example_file_names plan.*1.
Proof.
  revert files. induction plan as [|[name roles] plan IH]; intros files;
    simpl.
  - by intros [= <- <-].
  - destruct (generate_example_config p name roles true) as [f1|] eqn:E1;
      [|discriminate].
    destruct (generate_example_config p name roles false) as [f2|] eqn:E2;
      [|discriminate].
    destruct (write_examples p plan) as [written r] eqn:E.
    intros [= <- ->]. destruct (IH _ eq_refl) as [-> IHfiles].
    split; [done|].
    apply generate_example_config_file in E1 as (h & -> & Hh1 & Hn1).
    apply generate_example_config_file in E2 as (h' & [= <-] & Hh2 & Hn2).
    simpl. by rewrite Hh1, Hn1, Hh2, Hn2, IHfiles.
Qed.

(** X14: a run of generate that ends well returns 0 and has written, for
    every entry of roles_per_host in order, the secrets file and then the
    normal file of the host, two files per host name and no other file;
    and every host it was given has a string for name. *)
Theorem generate_writes_two_files_per_host (p : project) (depth : nat)
    (hosts : list ConfigHost.t) (files : list written_file) (z : Z) :
  generate p depth hosts = (files, Ok z) →
  z = 0%Z
  ∧ ∃ plan,
      roles_per_host p depth hosts = Ok plan
      ∧ map (λ f, (KStr (file_host f), file_name f)) files
        = flat_map example_file_names plan.*1
      ∧ length files = 2 * length plan
      ∧ Forall (λ h, ∃ s, ConfigHost.name h = YStr s) hosts.
Proof.
  unfold generate. intros H.
  destruct (roles_per_host p depth hosts) as [plan|] eqn:Hplan;
    [|discriminate].
  destruct (write_examples_Ok _ _ _ _ H) as [-> Hfiles].
  split; [done|]. exists plan. split; [done|]. split; [done|].
  assert (Hstr : ∀ k, k ∈ plan.*1 → ∃ s, k = KStr s).
  { clear Hplan. revert files H Hfiles.
    induction plan as [|[name roles] plan IH]; intros files H Hfiles k Hk.
    - by apply elem_of_nil in Hk.
    - simpl in H.
      destruct (generate_example_config p name roles true) as [f1|] eqn:E1;
        [|discriminate].
      destruct (generate_example_config p name roles false) as [f2|] eqn:E2;
        [|discriminate].
      destruct (write_examples p plan) as [written r] eqn:E.
      injection H as <- ->.
      apply generate_example_config_file in E1 as (h & -> & _).
      simpl in Hk. apply elem_of_cons in Hk as [-> | Hk]; [eauto|].
      destruct (write_examples_Ok _ _ _ _ E) as [_ Hw].
      by apply (IH written). }
  split.
  - apply (f_equal length) in Hfiles. rewrite length_map in Hfiles.
    rewrite Hfiles. clear -Hstr.
    induction plan as [|[name roles] plan IH]; [done|].
    destruct (Hstr name) as [s ->]; [by left|].
    assert (IH' : length (flat_map example_file_names plan.*1)
                  = 2 * length plan).
    { apply IH. intros k Hk. apply Hstr. by right. }
    simpl. unfold fmap in IH'. lia.
  - apply Forall_forall. intros h Hh.
    destruct (roles_per_host_keys_aux _ _ _ _ Hplan) as [_ Hkeys].
    assert (∃ k, Py.hash_key (ConfigHost.name h) = Ok k) as [k Hk].
    { apply (accumulate_hosts_hashed p depth hosts); [|done].
      unfold roles_per_host in Hplan.
      destruct (accumulate_hosts p depth hosts); [eauto | discriminate]. }
    destruct (Hstr k) as [s ->]; [apply Hkeys; eauto|].
    exists s. by apply hash_key_str.
Qed.

Lemma generate_writes_two_files_per_host_witness :
  ∃ plan,
    roles_per_host documented_project 5 [ConfigHost.mk (YStr "w1") "web"]
    = Ok plan
    ∧ length (generate documented_project 5
                [ConfigHost.mk (YStr "w1") "web"]).1 = 2 * length plan.
Proof.
  destruct (generate_writes_two_files_per_host documented_project 5
              [ConfigHost.mk (YStr "w1") "web"]
              (generate documented_project 5
                 [ConfigHost.mk (YStr "w1") "web"]).1 0 eq_refl)
    as (_ & plan & Hplan & _ & Hlen & _).
  exists plan. split; [exact Hplan | exact Hlen].
Defined.

Lemma string_app_assoc (s t u : string) : (s +:+ t) +:+ u = s +:+ t +:+ u.
Proof.
  induction s as [|a s IH]; [done|].
  change ((String a s +:+ t) +:+ u) with (String a ((s +:+ t) +:+ u)).
  by rewrite IH.
Qed.

(** X15: the two passes of a host write to the same directory and to
    files of different names, so the normal file never overwrites the
    secrets file written just before it. *)
Theorem example_files_differ (p : project) (name : pykey)
    (roles : gset string) (f_secrets f_normal : written_file) :
  generate_example_config p name roles true = Ok f_secrets →
  generate_example_config p name roles false = Ok f_normal →
  file_host f_secrets = file_host f_normal
  ∧ file_name f_secrets ≠ file_name f_normal.
Proof.
  intros H1 H2.
  apply generate_example_config_file in H1 as (h & -> & Hh1 & Hn1).
  apply generate_example_config_file in H2 as (h' & [= <-] & Hh2 & Hn2).
  split; [congruence|]. rewrite Hn1, Hn2. intros E.
  apply (inj (String.append ".")) in E.
  rewrite string_app_assoc in E. apply (inj (String.append h)) in E.
  discriminate.
Qed.

Lemma example_files_differ_witness :
  ".w1.secrets.yml.example" ≠ ".w1.yml.example".
Proof.
  refine (proj2 (example_files_differ documented_project (KStr "w1") ∅
            {| file_host := "w1";
               file_name := ".w1.secrets.yml.example";
               file_text := Py.join Py.nl (file_header "w1" true)
                            +:+ Py.nl +:+ Py.nl |}
            {| file_host := "w1";
               file_name := ".w1.yml.example";
               file_text := Py.join Py.nl (file_header "w1" false)
                            +:+ Py.nl +:+ Py.nl |} _ _)); reflexivity.
Defined.

(** ** find_playbook and the main block *)

Lemma find_first {A : Type} (f : A → bool) (l : list A) :
  match List.find f l with
  | Some x =>
      ∃ pre post, l = pre ++ x :: post
                  ∧ f x = true
                  ∧ Forall (λ y, f y = false) pre
  | None => Forall (λ y, f y = false) l
  end.
Proof.
  induction l as [|y l IH]; simpl; [constructor|].
  destruct (f y) eqn:E.
  - exists [], l. split; [done|]. split; [done | constructor].
  - destruct (List.find f l) as [x|].
    + destruct IH as (pre & post & -> & Hx & Hpre).
      exists (y :: pre), post. split; [done|]. split; [done|].
      by constructor.
    + by constructor.
Qed.


(** X16: find_playbook returns the first of the conventional names
    playbook.yml, site.yml, main.yml, deploy.yml that is a file, so an
    earlier name wins over a later one, and returns nothing exactly when
    none of the four is a file. *)
Theorem find_playbook_first (is_file : string → bool) :
  match find_playbook is_file with
  | Some name =>
      ∃ pre post, PLAYBOOK_AUTODETECT_NAMES = pre ++ name :: post
                  ∧ is_file name = true
                  ∧ Forall (λ other, is_file other = false) pre
  | None => Forall (λ other, is_file other = false) PLAYBOOK_AUTODETECT_NAMES
  end.
Proof. apply find_first. Qed.

Lemma generate_returns_zero (p : project) (depth : nat)
    (hosts : list ConfigHost.t) (files : list written_file) (z : Z) :
  generate p depth hosts = (files, Ok z) → z = 0%Z.
Proof.
  unfold generate.
  destruct (roles_per_host p depth hosts) as [plan|]; [|discriminate].
  intros H. by destruct (write_examples_Ok _ _ _ _ H) as [-> _].
Qed.

Lemma main_outcome (w : world) (depth : nat) (args : arguments) :
  main w depth args
  = match playbook_found w args with
    | None => ([], Exit 1)
    | Some main_file =>
        match inventory_file args with
        | Some (String a s) => ([], Uncaught AttributeError)
        | _ =>
            match get_hosts (default_inventory w main_file)
                            (process_shared args) with
            | Raise e => ([], Uncaught e)
            | Ok hosts =>
                let '(written, r) :=
                  generate (project_at w main_file) depth hosts in
                (written,
                 match r with Ok _ => Completed | Raise e => Uncaught e end)
            end
        end
    end.
Proof.
  unfold main, playbook_found.
  destruct (if bool_decide (playbook_main_file args = AUTODETECT)
            then find_playbook (is_file w)
            else if is_file w (playbook_main_file args)
                 then Some (playbook_main_file args) else None)
    as [main_file|]; [|done].
  by destruct (inventory_file args) as [[|a s]|].
Qed.



(** X18: a non-empty value of --inventory-file reaches HostsParser as the
    string argparse produced, not as a path: whenever a playbook is found,
    the run ends in AttributeError at the first use of the inventory file
    and writes nothing, whatever file the value names. *)
Theorem main_inventory_option_fails (w : world) (depth : nat)
    (args : arguments) (main_file : string) (a : ascii) (s : string) :
  playbook_found w args = Some main_file →
  inventory_file args = Some (String a s) →
  main w depth args = ([], Uncaught AttributeError).
Proof.
  intros Hfound Hinv. by rewrite main_outcome, Hfound, Hinv.
Qed.

Lemma main_inventory_option_fails_witness :
  main layered_world 3
    {| playbook_main_file := AUTODETECT;
       inventory_file := Some "inventory/hosts.yml";
       process_shared := true |}
  = ([], Uncaught AttributeError).
Proof.
  apply (main_inventory_option_fails layered_world 3 _ "site.yml"
           "i" "nventory/hosts.yml"); reflexivity.
Defined.

(** X19: a run of the main block that reaches its end found a playbook,
    was given no inventory option or an empty one, read the hosts from the
    default inventory beside the playbook, with the shared host first when
    --process-shared is on, and wrote exactly the files of generate for
    these hosts, which returned 0. *)
Theorem main_completed (w : world) (depth : nat) (args : arguments)
    (written : list written_file) :
  main w depth args = (written, Completed) →
  ∃ main_file hosts,
    playbook_found w args = Some main_file
    ∧ (inventory_file args = None ∨ inventory_file args = Some EmptyString)
    ∧ get_hosts (default_inventory w main_file) (process_shared args)
      = Ok hosts
    ∧ (process_shared args = true → ∃ found, hosts = shared_host :: found)
    ∧ generate (project_at w main_file) depth hosts = (written, Ok 0%Z).
Proof.
  rewrite main_outcome.
  destruct (playbook_found w args) as [main_file|]; [|discriminate].
  assert (Hinv : ∀ X : list written_file * outcome,
            match inventory_file args with
            | Some (String a s) => ([], Uncaught AttributeError)
            | _ => X
            end = (written, Completed) →
            (inventory_file args = None
             ∨ inventory_file args = Some EmptyString)
            ∧ X = (written, Completed)).
  { intros X. destruct (inventory_file args) as [[|a s]|]; eauto; discriminate. }
  intros H. apply Hinv in H as [Hopt H].
  destruct (get_hosts _ _) as [hosts|] eqn:Hhosts; [|discriminate].
  destruct (generate _ _ _) as [files r] eqn:Hgen.
  destruct r as [z|e]; [|discriminate]. injection H as ->.
  exists main_file, hosts. split; [done|]. split; [done|]. split; [done|].
  split.
  - intros Hshared. rewrite Hshared, get_hosts_shared_first in Hhosts.
    destruct (get_hosts (default_inventory w main_file) false) as [found|];
      [|discriminate].
    injection Hhosts as <-. by exists found.
  - pose proof (generate_returns_zero _ _ _ _ _ Hgen) as ->. exact Hgen.
Qed.

Lemma main_completed_witness :
  ∃ main_file hosts,
    playbook_found layered_world
      {| playbook_main_file := AUTODETECT;
         inventory_file := None;
         process_shared := true |} = Some main_file
    ∧ get_hosts (default_inventory layered_world main_file) true = Ok hosts
    ∧ ∃ found, hosts = shared_host :: found.
Proof.
  destruct (main_completed layered_world 3
              {| playbook_main_file := AUTODETECT;
                 inventory_file := None;
                 process_shared := true |}
              (main layered_world 3
                 {| playbook_main_file := AUTODETECT;
                    inventory_file := None;
                    process_shared := true |}).1 eq_refl)
    as (main_file & hosts & Hfound & _ & Hhosts & Hshared & _).
  exists main_file, hosts. split; [exact Hfound|]. split; [exact Hhosts|].
  exact (Hshared eq_refl).
Defined.

(** ** get_hosts on any inventory *)

Lemma for_each_never {A S : Type} (body : S → A → result S) (e : exn)
    (l : list A) (s : S) :
  (∀ s x, body s x ≠ Raise e) → for_each body l s ≠ Raise e.
Proof.
  intros Hbody. revert s. induction l as [|x l IH]; intros s; simpl;
    [discriminate|].
  destruct (body s x) as [s'|e'] eqn:E; simpl; [apply IH|].
  intros [= ->]. by apply (Hbody s x).
Qed.

Lemma get_hosts_group_no_ValueError (hosts : list ConfigHost.t)
    (entry : string * yaml) :
  get_hosts_group hosts entry ≠ Raise ValueError.
Proof.
  destruct entry as [group group_data]. unfold get_hosts_group.
  destruct group_data as [| | |s|l|d]; simpl; try discriminate.
  - destruct (Py.str_contains "hosts" s); discriminate.
  - destruct (existsb (Py.is_str "hosts") l); discriminate.
  - destruct (Py.dict_lookup "hosts" d) as [hs|]; simpl; [|discriminate].
    destruct (Py.iter hs) as [names|e] eqn:E; simpl.
    + by apply for_each_never.
    + intros [= ->]. destruct hs; simpl in E; discriminate.
Qed.

(** X20: get_hosts raises ValueError exactly when the inventory file is
    missing or decodes to an empty document; every other way of failing on
    a malformed inventory is a different exception. *)
Theorem get_hosts_ValueError (inventory_file : option yaml)
    (include_shared : bool) :
  get_hosts inventory_file include_shared = Raise ValueError
  ↔ match inventory_file with
    | None => True
    | Some inventory => Py.truthy inventory = false
    end.
Proof.
  unfold get_hosts. destruct inventory_file as [inventory|]; [|done].
  destruct (Py.truthy inventory) eqn:Ht; simpl; [|done].
  split; [|done]. intros H. exfalso. revert H.
  destruct (Py.values inventory) as [tops|e] eqn:E; simpl.
  - apply for_each_never. intros hosts top_data.
    destruct (Py.getitem top_data "children") as [children|e] eqn:E1; simpl.
    + destruct (Py.items children) as [groups|e] eqn:E2; simpl.
      * apply for_each_never. apply get_hosts_group_no_ValueError.
      * intros [= ->]. destruct children; simpl in E2; discriminate.
    + intros [= ->].
      destruct top_data as [| | | | |d]; simpl in E1; try discriminate.
      destruct (Py.dict_lookup "children" d); discriminate.
  - intros [= ->]. destruct inventory; simpl in E; discriminate.
Qed.

Lemma append_hosts (group : string) (names : list yaml)
    (hosts : list ConfigHost.t) :
  for_each (λ hosts host, Ok (hosts ++ [ConfigHost.mk host group]))
           names hosts
  = Ok (hosts ++ map (λ host, ConfigHost.mk host group) names).
Proof.
  revert hosts. induction names as [|n names IH]; intros hosts; simpl.
  - by rewrite app_nil_r.
  - rewrite IH. by rewrite <- app_assoc.
Qed.

Lemma get_hosts_group_doc (hosts : list ConfigHost.t)
    (g : string * option (list (string * yaml))) :
  get_hosts_group hosts (g.1, group_doc g.2) = Ok (hosts ++ group_hosts g).
Proof.
  destruct g as [group [hs|]]; unfold get_hosts_group, group_hosts; simpl.
  - rewrite append_hosts. do 2 f_equal. by rewrite map_map.
  - by rewrite app_nil_r.
Qed.

Lemma get_hosts_groups_doc (hosts : list ConfigHost.t)
    (groups : list (string * option (list (string * yaml)))) :
  for_each get_hosts_group (map (λ g, (g.1, group_doc g.2)) groups) hosts
  = Ok (hosts ++ flat_map group_hosts groups).
Proof.
  revert hosts. induction groups as [|g groups IH]; intros hosts.
  - simpl. by rewrite app_nil_r.
  - cbn [map for_each flat_map]. rewrite get_hosts_group_doc. simpl.
    rewrite IH. by rewrite <- app_assoc.
Qed.

(** X21: on a well-formed inventory, where every top-level entry holds a
    children mapping of groups and a group holds a hosts mapping or none,
    get_hosts returns one host per key of every hosts mapping, with the
    name of its group, in the order of the document, after the shared host
    when it is asked for; a group without hosts key contributes nothing and
    the variables of a host are not read. *)
Theorem get_hosts_inventory_doc
    (tops : list (string * list (string * option (list (string * yaml)))))
    (include_shared : bool) :
  tops ≠ [] →
  get_hosts (Some (inventory_doc tops)) include_shared
  = Ok ((if include_shared then [shared_host] else [])
        ++ flat_map (λ top, flat_map group_hosts top.2) tops).
Proof.
  intros Hne. unfold get_hosts, inventory_doc.
  replace (Py.truthy (YDict (map
             (λ top, (top.1, YDict [("children",
                        YDict (map (λ g, (g.1, group_doc g.2)) top.2))]))
             tops))) with true by (by destruct tops).
  clear Hne. cbn [negb Py.values mbind result_bind]. rewrite map_map.
  generalize (if include_shared then [shared_host] else []).
  induction tops as [|top tops IH]; intros hosts.
  - simpl. by rewrite app_nil_r.
  - cbn [map for_each flat_map snd].
    change (Py.getitem (YDict [("children",
               YDict (map (λ g, (g.1, group_doc g.2)) top.2))]) "children")
      with (Ok (YDict (map (λ g, (g.1, group_doc g.2)) top.2))).
    cbn [mbind result_bind Py.items].
    rewrite get_hosts_groups_doc. cbn [mbind result_bind].
    rewrite IH. by rewrite <- app_assoc.
Qed.

Lemma get_hosts_inventory_doc_witness :
  get_hosts
    (Some (inventory_doc
             [("all", [("web", Some [("w1", YNone); ("w2", YDict [])]);
                       ("empty", None);
                       ("db", Some [("d1", YNone)])])]))
    true
  = Ok [shared_host; ConfigHost.mk (YStr "w1") "web";
        ConfigHost.mk (YStr "w2") "web"; ConfigHost.mk (YStr "d1") "db"].
Proof.
  apply (get_hosts_inventory_doc
           [("all", [("web", Some [("w1", YNone); ("w2", YDict [])]);
                     ("empty", None);
                     ("db", Some [("d1", YNone)])])] true).
  discriminate.
Defined.

(** ** parse_role on any specification *)

Lemma bind_Raise_inv {A B : Type} (m : result A) (f : A → result B) (e : exn) :
  m ≫= f = Raise e → m = Raise e ∨ ∃ x, m = Ok x ∧ f x = Raise e.
Proof.
  destruct m as [x|e']; simpl.
  - intros H. right. by exists x.
  - intros [= ->]. by left.
Qed.

Lemma for_each_only {A S : Type} (body : S → A → result S) (e0 e : exn)
    (l : list A) (s : S) :
  (∀ s x e, body s x = Raise e → e = e0) →
  for_each body l s = Raise e → e = e0.
Proof.
  intros Hbody. revert s. induction l as [|x l IH]; intros s; simpl;
    [discriminate|].
  intros H. apply bind_Raise_inv in H as [H|(s' & _ & H)].
  - by apply (Hbody s x).
  - by apply (IH s').
Qed.

Lemma get_raise (v : yaml) (k : string) (dflt : yaml) (e : exn) :
  Py.get v k dflt = Raise e → e = AttributeError.
Proof. destruct v; simpl; congruence. Qed.

Lemma items_raise (v : yaml) (e : exn) :
  Py.items v = Raise e → e = AttributeError.
Proof. destruct v; simpl; congruence. Qed.

Lemma strip_raise (v : yaml) (e : exn) :
  Py.strip v = Raise e → e = AttributeError.
Proof. destruct v; simpl; congruence. Qed.

Lemma parse_role_option_raise (defaults : yaml)
    (st : yaml * list ConfigProperty.t) (entry : string * yaml) (e : exn) :
  parse_role_option defaults st entry = Raise e → e = AttributeError.
Proof.
  destruct entry as [var_name meta]. unfold parse_role_option. intros H.
  repeat (apply bind_Raise_inv in H as [H|(? & _ & H)];
          [first [by eapply get_raise | by eapply strip_raise]|]).
  discriminate.
Qed.

Lemma parse_role_raise (p : project) (role : string) (e : exn) :
  parse_role p role = Raise e → e = AttributeError.
Proof.
  unfold parse_role. destruct (specs_file p role) as [specs|]; [|discriminate].
  cbv beta iota zeta. intros H.
  apply bind_Raise_inv in H as [H|(arg_specs & _ & H)].
  { destruct (Py.truthy specs); [|discriminate].
    apply bind_Raise_inv in H as [H|(? & _ & H)]; by eapply get_raise. }
  apply bind_Raise_inv in H as [H|(ds & _ & H)].
  { destruct (Py.truthy arg_specs); [|discriminate].
    apply bind_Raise_inv in H as [H|(? & _ & H)]; [by eapply get_raise|].
    apply bind_Raise_inv in H as [H|(? & _ & H)]; [by eapply get_raise|].
    discriminate. }
  apply bind_Raise_inv in H as [H|(options & _ & H)].
  { destruct (Py.truthy arg_specs); [by eapply get_raise | discriminate]. }
  apply bind_Raise_inv in H as [H|(st & _ & H)]; [|discriminate].
  destruct (Py.truthy options); [|discriminate].
  apply bind_Raise_inv in H as [H|(entries & _ & H)]; [by eapply items_raise|].
  eapply for_each_only; [|exact H].
  intros s x e'. apply parse_role_option_raise.
Qed.

(** X22: whatever the specification and the defaults file of a role hold,
    the only exception parse_role raises on their content is
    AttributeError: a value that is no mapping where the code calls get or
    items, or a description that is no string where it calls strip. *)
Theorem parse_role_raises_AttributeError (p : project) (role : string)
    (e : exn) :
  parse_role p role = Raise e → e = AttributeError.
Proof. apply parse_role_raise. Qed.

Lemma parse_role_raises_AttributeError_witness :
  parse_role listed_description_project "web" = Raise AttributeError.
Proof.
  destruct (parse_role listed_description_project "web") as [r|e] eqn:E.
  - vm_compute in E. discriminate.
  - f_equal.
    exact (parse_role_raises_AttributeError listed_description_project "web"
             e E).
Defined.

(** The state in which [parse_role] starts the loop over the options of a
    specification that holds an options mapping. *)
Lemma parse_role_options_run (p : project) (role : string)
    (config_role : ConfigRole.t)
    (specs arg_specs main options : list (string * yaml)) :
  parse_role p role = Ok config_role →
  specs_file p role = Some (YDict specs) →
  Py.dict_lookup "argument_specs" specs = Some (YDict arg_specs) →
  Py.dict_lookup "main" arg_specs = Some (YDict main) →
  Py.dict_lookup "options" main = Some (YDict options) →
  ∃ defaults description st,
    for_each (parse_role_option defaults) options (description, []) = Ok st.
Proof.
  intros H Hspecs Hargs Hmain Hoptions. unfold parse_role in H.
  rewrite Hspecs in H. cbv beta iota zeta in H.
  rewrite (dict_lookup_truthy _ _ _ Hargs) in H.
  rewrite (get_lookup _ _ _ _ Hargs) in H.
  change (Ok (YDict arg_specs) ≫= (λ a, Py.get a "main" (YDict [])))
    with (Py.get (YDict arg_specs) "main" (YDict [])) in H.
  rewrite (get_lookup _ _ _ _ Hmain) in H.
  apply bind_Ok_inv in H as (m & [= <-] & H).
  rewrite (dict_lookup_truthy _ _ _ Hoptions) in H.
  rewrite (get_lookup _ _ _ _ Hoptions) in H.
  apply bind_Ok_inv in H as (ds & [= <-] & H).
  apply bind_Ok_inv in H as (o & [= <-] & H).
  apply bind_Ok_inv in H as (st & H & _).
  destruct options as [|entry options].
  - by exists YNone, YNone, (YNone, []).
  - cbn [Py.truthy] in H. eexists _, _, _. exact H.
Qed.

(** X23: an option whose description is present in the specification but
    is no string (a list of paragraphs, as argument_specs allows, or an
    empty value) makes parse_role fail with AttributeError at the call of
    strip, wherever the option stands among the others. *)
Theorem parse_role_description_not_a_string (p : project) (role : string)
    (specs arg_specs main options before after meta : list (string * yaml))
    (var_name : string) (description : yaml) :
  specs_file p role = Some (YDict specs) →
  Py.dict_lookup "argument_specs" specs = Some (YDict arg_specs) →
  Py.dict_lookup "main" arg_specs = Some (YDict main) →
  Py.dict_lookup "options" main = Some (YDict options) →
  options = before ++ (var_name, YDict meta) :: after →
  Py.dict_lookup "description" meta = Some description →
  (∀ s, description ≠ YStr s) →
  parse_role p role = Raise AttributeError.
Proof.
  intros Hspecs Hargs Hmain Hoptions -> Hdesc Hstr.
  destruct (parse_role p role) as [config_role|e] eqn:E.
  - exfalso.
    destruct (parse_role_options_run _ _ _ _ _ _ _ E Hspecs Hargs Hmain
                Hoptions) as (defaults & d0 & st & H).
    rewrite for_each_app in H.
    apply bind_Ok_inv in H as (st1 & _ & H). simpl in H.
    apply bind_Ok_inv in H as (st2 & H & _).
    unfold parse_role_option in H. simpl in H. rewrite Hdesc in H.
    simpl in H. destruct description; simpl in H; try discriminate.
    by eapply Hstr.
  - f_equal. by eapply parse_role_raise.
Qed.

Lemma parse_role_description_not_a_string_witness :
  parse_role listed_description_project "web" = Raise AttributeError.
Proof.
  eapply (parse_role_description_not_a_string listed_description_project
            "web" _ _ _ _ [] [] _ "port"
            (YList [YStr "Port"; YStr "to listen on"]));
    try reflexivity.
  intros s. discriminate.
Defined.

(** X24: a specification file that is empty, or whose argument_specs.main
    is missing or empty, gives the same role as no specification file at
    all: the name of the role directory, empty descriptions and no
    property; the defaults file is not consulted for it. *)
Theorem parse_role_undocumented (p : project) (role : string) :
  (specs_file p role = None
   ∨ ∃ specs arg_specs,
       specs_file p role = Some specs
       ∧ main_specs specs = Ok arg_specs
       ∧ Py.truthy arg_specs = false) →
  parse_role p role = Ok (undocumented_role role).
Proof.
  unfold parse_role, undocumented_role.
  intros [->|(specs & arg_specs & -> & Hmain & Hfalse)]; [done|].
  cbv beta iota zeta. unfold main_specs in Hmain. rewrite Hmain.
  cbn [mbind result_bind]. rewrite Hfalse. cbn [mbind result_bind].
  rewrite Hfalse. reflexivity.
Qed.

Lemma parse_role_undocumented_witness :
  parse_role undocumented_project "web" = Ok (undocumented_role "web").
Proof.
  apply (parse_role_undocumented undocumented_project "web"). right.
  exists (YDict [("argument_specs", YDict [("other", YDict [])])]), (YDict []).
  split; [reflexivity|]. split; reflexivity.
Defined.

(** ** build_role_config, line by line *)

Lemma value_line_in_property_lines (prop : ConfigProperty.t) :
  value_line prop ∈ property_lines prop.
Proof.
  unfold property_lines, value_line. rewrite !elem_of_app.
  do 3 right. apply elem_of_cons. by left.
Qed.

(** X25: every property of a role that the pass selects (a secret one in
    the secrets pass, any other in the plain pass) has its copy-paste line
    in the block build_role_config returns: the name, a colon and a space,
    then the default when there is one. *)
Theorem build_role_config_value_lines (config_role : ConfigRole.t)
    (secrets : bool) (prop : ConfigProperty.t) :
  prop ∈ ConfigRole.properties config_role →
  rendered secrets prop = true →
  value_line prop ∈ build_role_config config_role secrets.
Proof.
  intros Hin Hr. rewrite build_role_config_parts, !elem_of_app.
  right. left. unfold block_body.
  destruct (ConfigRole.properties config_role) as [|p0 props] eqn:E.
  - by apply elem_of_nil in Hin.
  - apply list_elem_of_In, in_flat_map. exists prop. split.
    + apply filter_In. split; [by apply list_elem_of_In | exact Hr].
    + apply list_elem_of_In, value_line_in_property_lines.
Qed.

Lemma build_role_config_value_lines_witness :
  "tls_key: " ∈ build_role_config nginx_role true.
Proof.
  apply (build_role_config_value_lines nginx_role true tls_key_property).
  - vm_compute. repeat (first [left; reflexivity | right]).
  - reflexivity.
Defined.
